(** * passport-atlassian-oauth: the [Strategy] constructor and [userProfile]

    A shallow embedding of [lib/passport-atlassian-oauth/strategy.js].

    The file has two functions.  [Strategy(options, verify)] validates and
    completes the caller's options object and hands it to the base
    constructor of passport-oauth.  [Strategy.prototype.userProfile] issues
    two signed GET requests through the OAuth client and reports the outcome
    to the [done] callback.

    JavaScript objects that are assigned to after they have been shared (the
    options object, the strategy instance) live in a store and are referred
    to by location.  Objects that are built once and handed over (the result
    of [JSON.parse], the profile, error objects) are immutable values.  An
    immutable object in a place where the program assigns to it, as the
    options of the constructor, behaves as a frozen object does. *)

From stdpp Require Import gmap strings list fin_maps pretty.
From Stdlib Require Import ZArith Ascii.

Local Open Scope string_scope.

(** ** Values *)

Abbreviation loc := nat.

(** Numbers are restricted to integers.  Objects are flat property maps:
    prototype chains, accessors and non-writable properties of store objects
    are outside the model.  [Error], [InternalOAuthError], [SyntaxError] and
    [TypeError] are instances of the error constructors of those names;
    [InternalOAuthError] is the one imported from passport-oauth, which
    records its two arguments as [message] and [oauthError].  The message of
    an error raised by the engine itself is engine specific and not kept. *)
#[warnings="-register-all"]
Inductive value : Type :=
| VUndefined
| VNull
| VBool (b : bool)
| VNum (n : Z)
| VStr (s : string)
| VRef (l : loc)
| VObject (props : gmap string value)
| VArray (elems : list value)
| Error (message : string)
| InternalOAuthError (message : string) (oauthError : value)
| SyntaxError
| TypeError.

Abbreviation object := (gmap string value).
Abbreviation store := (gmap nat (gmap string value)).

(** ToBoolean. *)
Definition truthy (v : value) : bool :=
  match v with
  | VUndefined | VNull => false
  | VBool b => b
  | VNum n => negb (n =? 0)%Z
  | VStr s => match s with EmptyString => false | String _ _ => true end
  | _ => true
  end.

(** [o.k] for an object whose property map is [o]. *)
Definition prop (o : object) (k : string) : value :=
  default VUndefined (o !! k).

(** [l.k] for the store object at [l]. *)
Definition field (σ : store) (l : loc) (k : string) : value :=
  default VUndefined (σ !! l ≫= (.!! k)).

(** ** Completions and the store monad *)

Inductive result (A : Type) : Type :=
| Ok (a : A)
| Thrown (e : value).
Arguments Ok {A} a.
Arguments Thrown {A} e.

(** The value of [v.k], or the [TypeError] of a read from [undefined] or
    [null].  On primitives and arrays the read yields [undefined]: correct
    for every property name that is not a built-in member of those values,
    which holds for each name this program reads. *)
Definition get (σ : store) (v : value) (k : string) : result value :=
  match v with
  | VUndefined | VNull => Thrown TypeError
  | VRef l => Ok (field σ l k)
  | VObject o => Ok (prop o k)
  | _ => Ok VUndefined
  end.

Definition js (A : Type) : Type := store -> store * result A.

#[global] Instance js_ret : MRet js := fun A a σ => (σ, Ok a).

#[global] Instance js_bind : MBind js := fun A B f m σ =>
  match m σ with
  | (σ', Ok a) => f a σ'
  | (σ', Thrown e) => (σ', Thrown e)
  end.

Definition throw {A : Type} (e : value) : js A := fun σ => (σ, Thrown e).

(** [{}]: a new empty object at an unused location. *)
Definition new_object : js value := fun σ =>
  let l := fresh (dom σ) in (<[l := ∅]> σ, Ok (VRef l)).

(** The expression [v.k]. *)
Definition read (v : value) (k : string) : js value := fun σ => (σ, get σ v k).

(** The expression [a || b]: [b] is evaluated only when [a] is falsy. *)
Definition or_else (a b : js value) : js value :=
  x ← a; if truthy x then mret x else b.

(** The statement [target.k = e].  The file is not in strict mode, so an
    assignment to a property of a primitive, or of an immutable object, is
    dropped without a fault. *)
Definition assign (target : value) (k : string) (e : js value) : js unit :=
  v ← e;
  match target with
  | VRef l => fun σ => (alter (insert k v) l σ, Ok ())
  | VUndefined | VNull => throw TypeError
  | _ => mret ()
  end.

(** ** The OAuth client's view of a request *)

(** The seven data arguments of
    [_performSecureRequest(token, tokenSecret, method, url, extra_params,
    post_body, post_content_type, callback)]. *)
Record request : Type := Build_request {
  rq_token : value;
  rq_tokenSecret : value;
  rq_method : string;
  rq_url : value;
  rq_extra_params : value;
  rq_post_body : value;
  rq_post_content_type : value
}.

(** When the client hands a response to the callback: on the stack of the
    dispatching call, or from a later turn of the event loop. *)
Inductive delivery : Type := Synchronous | Deferred.

(** What a dispatch does: it throws, or it takes the request and invokes
    [callback(err, body, res)] once, or it takes the request and never
    answers. *)
Inductive reply : Type :=
| Fault (e : value)
| Answer (d : delivery) (err body : value)
| NoAnswer.

(** ** What the program is given by its environment

    The engine's string conversion of numbers and objects, [JSON.parse]
    ([None] when it throws its [SyntaxError]), the base constructor
    [OAuthStrategy] of passport-oauth called as
    [OAuthStrategy.call(this, options, verify)], and the behaviour of
    [this._oauth._performSecureRequest].  Two requests of one [userProfile]
    call never coincide (see [whoami_profile_urls_differ]), so a reply
    that depends on the request alone loses nothing. *)
Class Host : Type := {
  ToPrimitiveString : value -> string;
  JSON_parse : string -> option value;
  OAuthStrategy : loc -> value -> value -> js unit;
  _performSecureRequest : request -> reply
}.

Section Program.
Context `{Host}.

(** ToString, applied to the result of ToPrimitive. *)
Definition ToString (v : value) : string :=
  match v with
  | VStr s => s
  | VUndefined => "undefined"
  | VNull => "null"
  | VBool true => "true"
  | VBool false => "false"
  | _ => ToPrimitiveString v
  end.

(** [a + b] where one operand is a string, as in every use of [+] in the
    source: the concatenation of the operands' string conversions. *)
Definition concat (a b : value) : value := VStr (ToString a ++ ToString b).

(** The expression [a + b] over expressions, left operand first. *)
Definition plus (a b : js value) : js value :=
  x ← a; y ← b; mret (concat x y).

Definition lit (v : value) : js value := mret v.

(** ** [function Strategy(options, verify)], lines 43-56 *)

Definition Strategy (this : loc) (options verify : value) : js unit :=
  options ← or_else (lit options) new_object;
  applicationURL ← read options "applicationURL";
  if negb (truthy applicationURL)
  then throw (Error "Atlassian Oauth Strategy requires a applicationURL option")
  else
  callbackURL ← read options "callbackURL";
  if negb (truthy callbackURL)
  then throw (Error "Atlassian Oauth Strategy requires a callbackURL option")
  else
  assign options "requestTokenURL"
    (or_else (read options "requestTokenURL")
       (plus (read options "applicationURL") (lit (VStr "/plugins/servlet/oauth/request-token"))));;
  assign options "accessTokenURL"
    (or_else (read options "accessTokenURL")
       (plus (read options "applicationURL") (lit (VStr "/plugins/servlet/oauth/access-token"))));;
  assign options "userAuthorizationURL"
    (or_else (read options "userAuthorizationURL")
       (plus (read options "applicationURL") (lit (VStr "/plugins/servlet/oauth/authorize"))));;
  assign options "signatureMethod"
    (or_else (read options "signatureMethod") (lit (VStr "RSA-SHA1")));;
  OAuthStrategy this options verify;;
  assign (VRef this) "name" (lit (VStr "atlassian-oauth"));;
  assign (VRef this) "_applicationURL" (read options "applicationURL").

(** ** Runs of [userProfile]

    What a run does that its environment can see: it asks the OAuth client
    to perform a request, it invokes [done] with a list of arguments, or a
    fault leaves a callback that the client invoked from the event loop,
    where no frame of this program is left to catch it. *)
Inductive event : Type :=
| Request (rq : request)
| Done (args : list value)
| Uncaught (e : value).

(** A piece of code runs to a completion, with the events [now] that happen
    before it completes and the events [later] that it has caused to happen
    in later turns of the event loop.  [done] is taken to return normally. *)
Record run : Type := Build_run {
  now : list event;
  outcome : result unit;
  later : list event
}.

Definition invoke_done (args : list value) : run :=
  {| now := [Done args]; outcome := Ok (); later := [] |}.

Definition raise (e : value) : run :=
  {| now := []; outcome := Thrown e; later := [] |}.

Definition escaped (c : result unit) : list event :=
  match c with
  | Ok _ => []
  | Thrown e => [Uncaught e]
  end.

(** [try { body } catch (e) { handler }]: the handler runs when the body
    completes by a throw.  What the body has left for later turns is out of
    the handler's reach. *)
Definition try_catch (body : run) (handler : value -> run) : run :=
  match outcome body with
  | Ok _ => body
  | Thrown e =>
      let h := handler e in
      {| now := now body ++ now h; outcome := outcome h; later := later body ++ later h |}
  end.

(** The call [self._oauth._performSecureRequest(..., callback)].  A fault
    is any throw of the call expression.  A synchronous answer runs the
    callback on the caller's stack, so that a throw of the callback
    completes the call; a deferred answer runs it after the call has
    returned. *)
Definition perform (rq : request) (callback : value -> value -> run) : run :=
  match _performSecureRequest rq with
  | Fault e => {| now := [Request rq]; outcome := Thrown e; later := [] |}
  | Answer Synchronous err body =>
      let r := callback err body in
      {| now := Request rq :: now r; outcome := outcome r; later := later r |}
  | Answer Deferred err body =>
      let r := callback err body in
      {| now := [Request rq]; outcome := Ok ();
         later := now r ++ escaped (outcome r) ++ later r |}
  | NoAnswer => {| now := [Request rq]; outcome := Ok (); later := [] |}
  end.

Definition reading (r : result value) (k : value -> run) : run :=
  match r with
  | Ok v => k v
  | Thrown e => raise e
  end.

Notation "'let!' x ':=' r 'in' k" := (reading r (fun x => k))
  (at level 10, x name, k at level 200).

Definition GET (token tokenSecret url : value) : request :=
  {| rq_token := token; rq_tokenSecret := tokenSecret; rq_method := "GET";
     rq_url := url; rq_extra_params := VNull; rq_post_body := VStr "";
     rq_post_content_type := VStr "application/json" |}.

(** ** [Strategy.prototype.userProfile], lines 82-123 *)

(** Line 85: [self._applicationURL + "/plugins/servlet/applinks/whoami"]. *)
Definition stashWhoAMIResource (σ : store) (self : loc) : value :=
  concat (field σ self "_applicationURL") (VStr "/plugins/servlet/applinks/whoami").

(** Line 92: [self._applicationURL + "/rest/api/1.0/users/" + username]. *)
Definition stashProfileResource (σ : store) (self : loc) (username : value) : value :=
  concat (concat (field σ self "_applicationURL") (VStr "/rest/api/1.0/users/")) username.

(** The callback of the second request, lines 95-115. *)
Definition on_profile (σ : store) (token tokenSecret err body : value) : run :=
  if truthy err
  then invoke_done [InternalOAuthError "failed to fetch user profile" err]
  else
    match JSON_parse (ToString body) with
    | None => raise SyntaxError
    | Some json =>
        let profile : object := {["provider" := VStr "atlassian-oauth"]} in
        let! name := get σ json "name" in
        let profile := <["id" := name]> profile in
        let! name := get σ json "name" in
        let profile := <["username" := name]> profile in
        let! displayName := get σ json "displayName" in
        let profile := <["displayName" := displayName]> profile in
        let! slug := get σ json "slug" in
        let profile := <["avatarUrls" := slug]> profile in
        let! emailAddress := get σ json "emailAddress" in
        let profile :=
          <["emails" := VArray [VObject {["value" := emailAddress]}]]> profile in
        let profile := <["_raw" := body]> profile in
        let profile := <["_json" := json]> profile in
        let profile := <["token" := token]> profile in
        let profile := <["tokenSecret" := tokenSecret]> profile in
        invoke_done [VNull; VObject profile]
    end.

(** The callback of the first request, lines 86-119. *)
Definition on_whoami (σ : store) (self : loc) (token tokenSecret err body : value) : run :=
  if truthy err
  then invoke_done [InternalOAuthError "failed to fetch username" err]
  else
    let username := body in
    try_catch
      (perform (GET token tokenSecret (stashProfileResource σ self username))
         (on_profile σ token tokenSecret))
      (fun e => invoke_done [e]).

Definition userProfile (σ : store) (self : loc) (token tokenSecret params : value) : run :=
  try_catch
    (perform (GET token tokenSecret (stashWhoAMIResource σ self))
       (on_whoami σ self token tokenSecret))
    (fun e => invoke_done [e]).

(** The events of a call, in the order in which they happen.  The call
    itself never completes by a throw (see [userProfile_returns]). *)
Definition trace (r : run) : list event := now r ++ later r.


Definition done_calls (t : list event) : list (list value) :=
  omap (fun e => match e with Done args => Some args | _ => None end) t.

Definition uncaught (t : list event) : list value :=
  omap (fun e => match e with Uncaught x => Some x | _ => None end) t.

(** ** The options object after lines 48-51 *)

(** The value that [options.k = options.k || fallback] stores. *)
Definition defaulted (o : object) (k : string) (fallback : value) : value :=
  if truthy (prop o k) then prop o k else fallback.

(** [options.applicationURL + suffix]. *)
Definition derived (o : object) (suffix : string) : value :=
  concat (prop o "applicationURL") (VStr suffix).

(** The three endpoint options with the path each one is derived from. *)
Definition endpoints : list (string * string) :=
  [ ("requestTokenURL", "/plugins/servlet/oauth/request-token");
    ("accessTokenURL", "/plugins/servlet/oauth/access-token");
    ("userAuthorizationURL", "/plugins/servlet/oauth/authorize") ].

(** The four assignments, each reading the object the previous one left. *)
Definition configured (o : object) : object :=
  let o := <["requestTokenURL" :=
              defaulted o "requestTokenURL" (derived o "/plugins/servlet/oauth/request-token")]> o in
  let o := <["accessTokenURL" :=
              defaulted o "accessTokenURL" (derived o "/plugins/servlet/oauth/access-token")]> o in
  let o := <["userAuthorizationURL" :=
              defaulted o "userAuthorizationURL" (derived o "/plugins/servlet/oauth/authorize")]> o in
  <["signatureMethod" := defaulted o "signatureMethod" (VStr "RSA-SHA1")]> o.

(** Lines 54-55, after the base constructor has returned. *)
Definition name_instance (this : loc) (options : value) : js unit :=
  assign (VRef this) "name" (lit (VStr "atlassian-oauth"));;
  assign (VRef this) "_applicationURL" (read options "applicationURL").

End Program.

(** ** A host to run the program on

    A small environment for concrete runs: a reader for JSON texts, a base
    constructor that checks its options the way passport-oauth does, and an
    OAuth client that answers from a table of URLs. *)
Module Sample.

Definition quote : Ascii.ascii := "034"%char.
Definition backslash : Ascii.ascii := "092"%char.

(** Writes a text with apostrophes in place of its double quotes. *)
Fixpoint text (s : string) : string :=
  match s with
  | EmptyString => EmptyString
  | String c r => String (if Ascii.eqb c "'" then quote else c) (text r)
  end.

Definition is_ws (c : Ascii.ascii) : bool :=
  Ascii.eqb c " " || Ascii.eqb c "009" || Ascii.eqb c "010" || Ascii.eqb c "013".

Fixpoint skip_ws (s : string) : string :=
  match s with
  | String c r => if is_ws c then skip_ws r else s
  | EmptyString => s
  end.

Definition unescape (c : Ascii.ascii) : option ascii :=
  if Ascii.eqb c quote then Some quote
  else if Ascii.eqb c backslash then Some backslash
  else if Ascii.eqb c "/" then Some "/"%char
  else if Ascii.eqb c "b" then Some "008"%char
  else if Ascii.eqb c "f" then Some "012"%char
  else if Ascii.eqb c "n" then Some "010"%char
  else if Ascii.eqb c "r" then Some "013"%char
  else if Ascii.eqb c "t" then Some "009"%char
  else None.

(** The rest of a string literal after its opening quote. *)
Fixpoint read_string (s : string) : option (string * string) :=
  match s with
  | EmptyString => None
  | String c r =>
      if Ascii.eqb c quote then Some (EmptyString, r)
      else if Ascii.eqb c backslash then
        match r with
        | String e r' =>
            c' ← unescape e; '(t, rest) ← read_string r'; Some (String c' t, rest)
        | EmptyString => None
        end
      else if (Ascii.nat_of_ascii c <? 32)%nat then None
      else '(t, rest) ← read_string r; Some (String c t, rest)
  end.

Definition digit (c : Ascii.ascii) : option Z :=
  let n := Ascii.nat_of_ascii c in
  if (48 <=? n)%nat && (n <=? 57)%nat then Some (Z.of_nat (n - 48)) else None.

Fixpoint read_digits (acc : Z) (s : string) : Z * string :=
  match s with
  | String c r =>
      match digit c with
      | Some d => read_digits (10 * acc + d) r
      | None => (acc, s)
      end
  | EmptyString => (acc, s)
  end.

(** An integer without sign: no leading zero, and no fraction or exponent
    part, which [VNum] could not hold. *)
Definition read_int (s : string) : option (Z * string) :=
  match s with
  | String c r =>
      d ← digit c;
      let '(n, rest) := if (d =? 0)%Z then (0%Z, r) else read_digits d r in
      match rest with
      | String c' _ =>
          if bool_decide (is_Some (digit c')) || Ascii.eqb c' "." || Ascii.eqb c' "e" || Ascii.eqb c' "E"
          then None else Some (n, rest)
      | EmptyString => Some (n, rest)
      end
  | EmptyString => None
  end.

Fixpoint read_value (fuel : nat) (s : string) : option (value * string) :=
  match fuel with
  | O => None
  | S fuel =>
      match skip_ws s with
      | String "{" r =>
          match skip_ws r with
          | String "}" r' => Some (VObject ∅, r')
          | _ => read_members fuel ∅ r
          end
      | String "[" r =>
          match skip_ws r with
          | String "]" r' => Some (VArray [], r')
          | _ => read_elements fuel [] r
          end
      | String "t" (String "r" (String "u" (String "e" r))) => Some (VBool true, r)
      | String "f" (String "a" (String "l" (String "s" (String "e" r)))) =>
          Some (VBool false, r)
      | String "n" (String "u" (String "l" (String "l" r))) => Some (VNull, r)
      | String "-" r => '(n, rest) ← read_int r; Some (VNum (- n), rest)
      | String c r =>
          if Ascii.eqb c quote
          then '(t, rest) ← read_string r; Some (VStr t, rest)
          else '(n, rest) ← read_int (String c r); Some (VNum n, rest)
      | EmptyString => None
      end
  end
with read_members (fuel : nat) (acc : gmap string value) (s : string)
  : option (value * string) :=
  match fuel with
  | O => None
  | S fuel =>
      match skip_ws s with
      | String c r =>
          if Ascii.eqb c quote then
            '(k, r) ← read_string r;
            match skip_ws r with
            | String ":" r =>
                '(v, r) ← read_value fuel r;
                match skip_ws r with
                | String "," r => read_members fuel (<[k := v]> acc) r
                | String "}" r => Some (VObject (<[k := v]> acc), r)
                | _ => None
                end
            | _ => None
            end
          else None
      | EmptyString => None
      end
  end
with read_elements (fuel : nat) (acc : list value) (s : string)
  : option (value * string) :=
  match fuel with
  | O => None
  | S fuel =>
      '(v, r) ← read_value fuel s;
      match skip_ws r with
      | String "," r => read_elements fuel (acc ++ [v]) r
      | String "]" r => Some (VArray (acc ++ [v]), r)
      | _ => None
      end
  end.

(** A whole text: one value and nothing but white space after it. *)
Definition parse (s : string) : option value :=
  '(v, r) ← read_value (S (String.length s)) s;
  match skip_ws r with
  | EmptyString => Some v
  | String _ _ => None
  end.

(** A stand-in for the base constructor of passport-oauth: it names the
    instance "oauth" and keeps the verify callback, makes its checks in its
    order, and keeps what it keeps of the options on the instance.  The
    OAuth client that it creates under [_oauth] is left out. *)
Definition require (options : value) (k message : string) : js unit :=
  v ← read options k; if truthy v then mret () else throw (Error message).

Definition require_defined (options : value) (k message : string) : js unit :=
  v ← read options k;
  match v with
  | VUndefined => throw (Error message)
  | _ => mret ()
  end.

Definition base (this : loc) (options verify : value) : js unit :=
  assign (VRef this) "name" (lit (VStr "oauth"));;
  assign (VRef this) "_verify" (lit verify);;
  require options "requestTokenURL" "OAuthStrategy requires a requestTokenURL option";;
  require options "accessTokenURL" "OAuthStrategy requires a accessTokenURL option";;
  require options "userAuthorizationURL" "OAuthStrategy requires a userAuthorizationURL option";;
  require options "consumerKey" "OAuthStrategy requires a consumerKey option";;
  require_defined options "consumerSecret" "OAuthStrategy requires a consumerSecret option";;
  (if truthy verify then mret ()
   else throw (Error "OAuth authentication strategy requires a verify function"));;
  assign (VRef this) "_userAuthorizationURL" (read options "userAuthorizationURL");;
  assign (VRef this) "_callbackURL" (read options "callbackURL").

(** An OAuth client that answers by URL from a table. *)
Definition client (routes : gmap string reply) (rq : request) : reply :=
  match rq_url rq with
  | VStr u => default NoAnswer (routes !! u)
  | _ => Fault TypeError
  end.

Definition number_or_object (v : value) : string :=
  match v with
  | VNum n => pretty n
  | _ => "[object Object]"
  end.

Definition host (routes : gmap string reply) : Host :=
  {| ToPrimitiveString := number_or_object;
     JSON_parse := parse;
     OAuthStrategy := base;
     _performSecureRequest := client routes |}.

(** The profile text of the running example. *)
Definition jdoe_body : string :=
  text "{'name':'jdoe','displayName':'Jane Doe','slug':'jdoe','emailAddress':'jane@example.com'}".

(** The object that the profile text denotes. *)
Definition jdoe_json : gmap string value :=
  <["name" := VStr "jdoe"]>
  (<["displayName" := VStr "Jane Doe"]>
  (<["slug" := VStr "jdoe"]>
  {["emailAddress" := VStr "jane@example.com"]})).

(** A store with an options object at 1, a fresh instance at 2 and a verify
    function at 3. *)
Definition store_with (options : gmap string value) : gmap nat (gmap string value) :=
  <[1 := options]> (<[2 := ∅]> (<[3 := ∅]> ∅)).

Definition complete_options : gmap string value :=
  <["applicationURL" := VStr "https://example.atlassian.net"]>
  (<["callbackURL" := VStr "https://app.example.com/auth/callback"]>
  (<["consumerKey" := VStr "sample-nodejs-app"]>
  {["consumerSecret" := VStr "pem"]})).

(** A store with a constructed instance at 2. *)
Definition store_of_instance : gmap nat (gmap string value) :=
  <[2 := <["_applicationURL" := VStr "https://example.atlassian.net"]>
         {["name" := VStr "atlassian-oauth"]}]> ∅.

Definition whoami_url : string :=
  "https://example.atlassian.net/plugins/servlet/applinks/whoami".

Definition jdoe_url : string :=
  "https://example.atlassian.net/rest/api/1.0/users/jdoe".

Definition options_without_callbackURL : gmap string value :=
  {["applicationURL" := VStr "https://example.atlassian.net"]}.

Definition options_without_applicationURL : gmap string value :=
  <["callbackURL" := VStr "https://app.example.com/auth/callback"]>
  {["consumerKey" := VStr "sample-nodejs-app"]}.

Definition options_with_accessTokenURL : gmap string value :=
  <["accessTokenURL" := VStr "https://sso.example.com/oauth/access"]> complete_options.

Definition options_with_signatureMethod : gmap string value :=
  <["signatureMethod" := VStr "HMAC-SHA1"]> complete_options.

Definition options_with_empty_requestTokenURL : gmap string value :=
  <["requestTokenURL" := VStr ""]> complete_options.

Definition options_with_empty_signatureMethod : gmap string value :=
  <["signatureMethod" := VStr ""]> complete_options.

Definition token : value := VStr "token".
Definition tokenSecret : value := VStr "secret".
Definition verify : value := VRef 3.

(** Three clients: one that answers both requests of the running
    example, one whose second answer is not JSON, and one that refuses the
    first request.  All answer from the event loop, as the OAuth client
    does. *)
Definition jdoe_host : Host :=
  host (<[whoami_url := Answer Deferred VNull (VStr "jdoe")]>
        {[jdoe_url := Answer Deferred VNull (VStr jdoe_body)]}).

Definition not_json_host : Host :=
  host (<[whoami_url := Answer Deferred VNull (VStr "jdoe")]>
        {[jdoe_url := Answer Deferred VNull (VStr "not-json")]}).

Definition unauthorized : value := VObject {["statusCode" := VNum 401]}.


(** More clients: one whose second answer is an error, two whose dispatch
    throws (at the first request, at the second), one that leaves the
    second request unanswered, and three whose second answer is JSON of
    another shape. *)
Definition not_found : value := VObject {["statusCode" := VNum 404]}.

Definition profile_refusing_host : Host :=
  host (<[whoami_url := Answer Deferred VNull (VStr "jdoe")]>
        {[jdoe_url := Answer Deferred not_found (VStr "Not Found")]}).

Definition signing_fault : value := Error "error:0906D06C:PEM routines".

Definition faulting_host : Host :=
  host {[whoami_url := Fault signing_fault]}.

Definition late_faulting_host : Host :=
  host (<[whoami_url := Answer Deferred VNull (VStr "jdoe")]>
        {[jdoe_url := Fault signing_fault]}).

Definition half_silent_host : Host :=
  host {[whoami_url := Answer Deferred VNull (VStr "jdoe")]}.

Definition empty_object_host : Host :=
  host (<[whoami_url := Answer Deferred VNull (VStr "jdoe")]>
        {[jdoe_url := Answer Deferred VNull (VStr "{}")]}).

Definition null_body_host : Host :=
  host (<[whoami_url := Answer Deferred VNull (VStr "jdoe")]>
        {[jdoe_url := Answer Deferred VNull (VStr "null")]}).

Definition number_body_host : Host :=
  host (<[whoami_url := Answer Deferred VNull (VStr "jdoe")]>
        {[jdoe_url := Answer Deferred VNull (VStr "42")]}).

(** A client that gives every request the same reply. *)
Definition always (r : reply) : Host :=
  {| ToPrimitiveString := number_or_object;
     JSON_parse := parse;
     OAuthStrategy := base;
     _performSecureRequest := fun _ => r |}.

Definition options_without_consumerKey : gmap string value :=
  <["applicationURL" := VStr "https://example.atlassian.net"]>
  {["callbackURL" := VStr "https://app.example.com/auth/callback"]}.

Definition options_with_empty_applicationURL : gmap string value :=
  <["applicationURL" := VStr ""]> complete_options.

(** The properties of a frozen options object that carries the three
    endpoint URLs and no [signatureMethod]. *)
Definition options_with_endpoints : gmap string value :=
  <["requestTokenURL" := VStr "https://sso.example.com/oauth/request"]>
  (<["accessTokenURL" := VStr "https://sso.example.com/oauth/access"]>
  (<["userAuthorizationURL" := VStr "https://sso.example.com/oauth/authorize"]>
  complete_options)).

(** The store that [new Strategy(options, verify)] leaves for a frozen
    options object with these properties and the instance at 2. *)
Definition constructed_frozen (options : gmap string value)
  : gmap nat (gmap string value) * result unit :=
  Strategy (H := host ∅) 2 (VObject options) verify (store_with ∅).

(** The store that [new Strategy(options, verify)] leaves, for the options
    object at 1 and the instance at 2. *)
Definition constructed (options : gmap string value) : gmap nat (gmap string value) :=
  (Strategy (H := jdoe_host) 2 (VRef 1) verify (store_with options)).1.

(** One call of [userProfile] on the constructed instance. *)
Definition fetch (h : Host) : list event :=
  trace (userProfile (H := h) store_of_instance 2 token tokenSecret VUndefined).

End Sample.

(** * Facts about the constructor *)

Section Construction.
Context `{Host}.
Implicit Types (σ : store) (o : object) (l this : loc) (k : string).

Lemma alter_present σ l o (f : object -> object) :
  σ !! l = Some o -> alter f l σ = <[l := f o]> σ.
Proof.
  intros Hl. apply map_eq; intros j.
  rewrite lookup_alter, lookup_insert.
  case_decide; subst; [by rewrite Hl | done].
Qed.

Lemma field_lookup σ l o k : σ !! l = Some o -> field σ l k = prop o k.
Proof. intros Hl. unfold field, prop. by rewrite Hl. Qed.

Lemma field_insert σ l o k : field (<[l := o]> σ) l k = prop o k.
Proof. apply field_lookup, lookup_insert_eq. Qed.

Lemma prop_insert o k v : prop (<[k := v]> o) k = v.
Proof. unfold prop. by rewrite lookup_insert_eq. Qed.

Lemma prop_insert_ne o k k' v : k ≠ k' -> prop (<[k := v]> o) k' = prop o k'.
Proof. intros Hk. unfold prop. by rewrite lookup_insert_ne. Qed.

(** One of lines 48-50 on an options object of the store. *)
Lemma assign_endpoint σ l o k suffix :
  σ !! l = Some o ->
  assign (VRef l) k
    (or_else (read (VRef l) k)
       (plus (read (VRef l) "applicationURL") (lit (VStr suffix)))) σ
  = (<[l := <[k := defaulted o k (derived o suffix)]> o]> σ, Ok ()).
Proof.
  intros Hl.
  unfold assign, or_else, plus, read, lit, mbind, js_bind, mret, js_ret,
    defaulted, derived, get.
  rewrite !(field_lookup _ _ _ _ Hl).
  destruct (truthy (prop o k));
    by rewrite ?(field_lookup _ _ _ _ Hl), (alter_present _ _ _ _ Hl).
Qed.

(** Line 51. *)
Lemma assign_signatureMethod σ l o :
  σ !! l = Some o ->
  assign (VRef l) "signatureMethod"
    (or_else (read (VRef l) "signatureMethod") (lit (VStr "RSA-SHA1"))) σ
  = (<[l := <["signatureMethod" := defaulted o "signatureMethod" (VStr "RSA-SHA1")]> o]> σ,
     Ok ()).
Proof.
  intros Hl.
  unfold assign, or_else, read, lit, mbind, js_bind, mret, js_ret, defaulted, get.
  rewrite !(field_lookup _ _ _ _ Hl).
  destruct (truthy (prop o "signatureMethod")); by rewrite (alter_present _ _ _ _ Hl).
Qed.

Lemma bind_ok {A B : Type} (m : js A) (f : A -> js B) σ σ' a :
  m σ = (σ', Ok a) -> (m ≫= f) σ = f a σ'.
Proof. intros Hm. unfold mbind, js_bind. by rewrite Hm. Qed.

Lemma or_else_truthy v (b : js value) σ :
  truthy v = true -> or_else (lit v) b σ = (σ, Ok v).
Proof.
  intros Hv. unfold or_else, lit, mbind, js_bind, mret, js_ret. by rewrite Hv.
Qed.

Lemma or_else_falsy v (b : js value) σ :
  truthy v = false -> or_else (lit v) b σ = b σ.
Proof.
  intros Hv. unfold or_else, lit, mbind, js_bind, mret, js_ret. by rewrite Hv.
Qed.

Lemma read_object σ l o k : σ !! l = Some o -> read (VRef l) k σ = (σ, Ok (prop o k)).
Proof. intros Hl. unfold read, get. by rewrite (field_lookup _ _ _ _ Hl). Qed.

(** The constructor on an options object of the store, step by step:
    the two guards, the four assignments collapsed into [configured], the
    base constructor on the updated store, and lines 54-55. *)
Lemma Strategy_on_object this l o verify σ :
  σ !! l = Some o ->
  Strategy this (VRef l) verify σ =
    if negb (truthy (prop o "applicationURL"))
    then (σ, Thrown (Error "Atlassian Oauth Strategy requires a applicationURL option"))
    else if negb (truthy (prop o "callbackURL"))
    then (σ, Thrown (Error "Atlassian Oauth Strategy requires a callbackURL option"))
    else (OAuthStrategy this (VRef l) verify ≫= fun _ => name_instance this (VRef l))
           (<[l := configured o]> σ).
Proof.
  intros Hl. unfold Strategy.
  erewrite bind_ok; [| by apply or_else_truthy].
  erewrite bind_ok; [| by apply read_object].
  destruct (truthy (prop o "applicationURL")); [cbn [negb] | done].
  erewrite bind_ok; [| by apply read_object].
  destruct (truthy (prop o "callbackURL")); [cbn [negb] | done].
  erewrite bind_ok; [| by apply assign_endpoint].
  erewrite bind_ok; [| apply assign_endpoint, lookup_insert_eq].
  rewrite insert_insert_eq.
  erewrite bind_ok; [| apply assign_endpoint, lookup_insert_eq].
  rewrite insert_insert_eq.
  erewrite bind_ok; [| apply assign_signatureMethod, lookup_insert_eq].
  rewrite insert_insert_eq.
  reflexivity.
Qed.

Lemma configured_endpoint o k suffix :
  (k, suffix) ∈ endpoints ->
  configured o !! k = Some (defaulted o k (derived o suffix)).
Proof.
  unfold endpoints. rewrite !elem_of_cons, elem_of_nil.
  intros [E | [E | [E | []]]]; injection E as -> ->;
    unfold configured, defaulted, derived, prop;
    repeat (rewrite lookup_insert_eq || (rewrite lookup_insert_ne by done));
    reflexivity.
Qed.

Lemma configured_signatureMethod o :
  configured o !! "signatureMethod" = Some (defaulted o "signatureMethod" (VStr "RSA-SHA1")).
Proof.
  unfold configured, defaulted, prop.
  repeat (rewrite lookup_insert_eq || (rewrite lookup_insert_ne by done)).
  reflexivity.
Qed.

(** The constructor leaves every property it does not assign as it was. *)
Lemma configured_other o k :
  k ∉ ["requestTokenURL"; "accessTokenURL"; "userAuthorizationURL"; "signatureMethod"] ->
  configured o !! k = o !! k.
Proof.
  rewrite !not_elem_of_cons. intros (? & ? & ? & ? & _).
  unfold configured. by rewrite !lookup_insert_ne.
Qed.

(** The first guard, line 45. *)
Lemma Strategy_without_applicationURL this l o verify σ :
  σ !! l = Some o ->
  o !! "applicationURL" = None ->
  Strategy this (VRef l) verify σ =
    (σ, Thrown (Error "Atlassian Oauth Strategy requires a applicationURL option")).
Proof.
  intros Hl Hm. rewrite (Strategy_on_object _ _ _ _ _ Hl).
  unfold prop at 1. by rewrite Hm.
Qed.

(** A construction that completes has passed both guards and has run the
    base constructor, to completion, on the store in which the options
    object is [configured]. *)
Lemma Strategy_completes this l o verify σ σ' :
  σ !! l = Some o ->
  Strategy this (VRef l) verify σ = (σ', Ok ()) ->
  truthy (prop o "applicationURL") = true /\
  truthy (prop o "callbackURL") = true /\
  exists σ2,
    OAuthStrategy this (VRef l) verify (<[l := configured o]> σ) = (σ2, Ok ()) /\
    name_instance this (VRef l) σ2 = (σ', Ok ()).
Proof.
  intros Hl. rewrite (Strategy_on_object _ _ _ _ _ Hl).
  destruct (truthy (prop o "applicationURL")); [cbn [negb] | done].
  destruct (truthy (prop o "callbackURL")); [cbn [negb] | done].
  unfold mbind, js_bind.
  destruct (OAuthStrategy this (VRef l) verify (<[l:=configured o]> σ)) as [σ2 [[] | e]];
    [| done].
  intros Hn. eauto.
Qed.

Lemma name_instance_store this options σ σ' :
  name_instance this options σ = (σ', Ok ()) ->
  exists v, σ' = alter (insert "_applicationURL" v) this
                   (alter (insert "name" (VStr "atlassian-oauth")) this σ).
Proof.
  unfold name_instance, assign, lit, read, mbind, js_bind, mret, js_ret.
  destruct (get _ options "applicationURL") as [v | e]; [| done].
  intros [= <-]. eauto.
Qed.

(** Lines 54-55 write to the instance only, and only its [name] and
    [_applicationURL]. *)
Lemma name_instance_frame this options σ σ' l k :
  name_instance this options σ = (σ', Ok ()) ->
  k ≠ "name" -> k ≠ "_applicationURL" ->
  (σ' !! l ≫= (.!! k)) = (σ !! l ≫= (.!! k)).
Proof.
  intros [v ->]%name_instance_store Hn Ha.
  destruct (decide (this = l)) as [-> | Hne].
  - rewrite !lookup_alter_eq.
    destruct (σ !! l) as [o |]; [simpl | done].
    by rewrite !lookup_insert_ne.
  - by rewrite !lookup_alter_ne.
Qed.

(** Lines 54-55 on an instance of the store: the instance is named, and
    its [_applicationURL] is the options object's [applicationURL] as the
    base constructor left it. *)
Lemma name_instance_fields this l σ σ' :
  is_Some (σ !! this) ->
  name_instance this (VRef l) σ = (σ', Ok ()) ->
  field σ' this "name" = VStr "atlassian-oauth" /\
  field σ' this "_applicationURL" = field σ l "applicationURL".
Proof.
  intros [i Hi].
  unfold name_instance, assign, lit, read, get, mbind, js_bind, mret, js_ret.
  intros [= <-].
  rewrite (alter_present _ _ _ _ Hi).
  rewrite (alter_present _ this (<["name" := VStr "atlassian-oauth"]> i))
    by apply lookup_insert_eq.
  rewrite insert_insert_eq, !field_insert.
  rewrite prop_insert_ne, !prop_insert by done. split; [reflexivity |].
  destruct (decide (this = l)) as [-> | Hne].
  - rewrite field_insert, prop_insert_ne by done. symmetry. by apply field_lookup.
  - unfold field. by rewrite lookup_insert_ne.
Qed.

(** ** Options that are not a store object *)

(** One of lines 48-51 on a frozen options object: the right-hand side is
    evaluated and the assignment is dropped. *)
Lemma assign_frozen (p : object) k (e : js value) σ v :
  e σ = (σ, Ok v) -> assign (VObject p) k e σ = (σ, Ok ()).
Proof. intros He. unfold assign. by erewrite bind_ok. Qed.

Lemma endpoint_expression_frozen (p : object) k suffix σ :
  exists v,
    or_else (read (VObject p) k)
      (plus (read (VObject p) "applicationURL") (lit (VStr suffix))) σ = (σ, Ok v).
Proof.
  unfold or_else, plus, read, lit, mbind, js_bind, mret, js_ret, get.
  destruct (truthy (prop p k)); eauto.
Qed.

Lemma signatureMethod_expression_frozen (p : object) σ :
  exists v,
    or_else (read (VObject p) "signatureMethod") (lit (VStr "RSA-SHA1")) σ = (σ, Ok v).
Proof.
  unfold or_else, read, lit, mbind, js_bind, mret, js_ret, get.
  destruct (truthy (prop p "signatureMethod")); eauto.
Qed.

(** The constructor on a frozen options object: the two guards, then the
    base constructor on the store as it is, with the object as it is. *)
Lemma Strategy_on_frozen this (p : object) verify σ :
  Strategy this (VObject p) verify σ =
    if negb (truthy (prop p "applicationURL"))
    then (σ, Thrown (Error "Atlassian Oauth Strategy requires a applicationURL option"))
    else if negb (truthy (prop p "callbackURL"))
    then (σ, Thrown (Error "Atlassian Oauth Strategy requires a callbackURL option"))
    else (OAuthStrategy this (VObject p) verify ≫= fun _ => name_instance this (VObject p)) σ.
Proof.
  unfold Strategy.
  erewrite bind_ok; [| by apply or_else_truthy].
  erewrite bind_ok; [| reflexivity]. simpl.
  destruct (truthy (prop p "applicationURL")); [cbn [negb] | done].
  erewrite bind_ok; [| reflexivity]. simpl.
  destruct (truthy (prop p "callbackURL")); [cbn [negb] | done].
  destruct (endpoint_expression_frozen p "requestTokenURL"
              "/plugins/servlet/oauth/request-token" σ) as [v1 H1].
  destruct (endpoint_expression_frozen p "accessTokenURL"
              "/plugins/servlet/oauth/access-token" σ) as [v2 H2].
  destruct (endpoint_expression_frozen p "userAuthorizationURL"
              "/plugins/servlet/oauth/authorize" σ) as [v3 H3].
  destruct (signatureMethod_expression_frozen p σ) as [v4 H4].
  erewrite bind_ok; [| by eapply assign_frozen].
  erewrite bind_ok; [| by eapply assign_frozen].
  erewrite bind_ok; [| by eapply assign_frozen].
  erewrite bind_ok; [| by eapply assign_frozen].
  reflexivity.
Qed.

(** Falsy options: line 44 makes a new empty object and line 45 throws. *)
Lemma Strategy_on_falsy this options verify σ :
  truthy options = false ->
  Strategy this options verify σ =
    (<[fresh (dom σ) := ∅]> σ,
     Thrown (Error "Atlassian Oauth Strategy requires a applicationURL option")).
Proof.
  intros Hf. unfold Strategy.
  erewrite bind_ok; [| rewrite or_else_falsy by exact Hf; reflexivity].
  erewrite bind_ok; [| apply read_object, lookup_insert_eq].
  reflexivity.
Qed.

(** A construction that completes was given an object: one of the store,
    or a frozen one. *)
Lemma Strategy_completes_on_object this options verify σ σ' :
  Strategy this options verify σ = (σ', Ok ()) ->
  (exists l o, options = VRef l /\ σ !! l = Some o) \/ (exists p, options = VObject p).
Proof.
  intros Hrun.
  destruct (truthy options) eqn:Ht;
    [| by rewrite (Strategy_on_falsy _ _ _ _ Ht) in Hrun].
  destruct options as [| | b | n | s | l | p | elems | m | m c | |];
    try (right; by eauto);
    try (exfalso; revert Hrun; unfold Strategy;
         (erewrite bind_ok; [| by apply or_else_truthy]); done).
  destruct (σ !! l) as [o |] eqn:Hl; [left; by eauto |].
  exfalso. revert Hrun. unfold Strategy.
  erewrite bind_ok; [| by apply or_else_truthy].
  erewrite bind_ok; [| unfold read, get, field; rewrite Hl; reflexivity].
  done.
Qed.

(** A construction from a frozen options object that completes has passed
    both guards and has run the base constructor, to completion, on the
    store it was given. *)
Lemma Strategy_completes_frozen this (p : object) verify σ σ' :
  Strategy this (VObject p) verify σ = (σ', Ok ()) ->
  truthy (prop p "applicationURL") = true /\
  truthy (prop p "callbackURL") = true /\
  exists σ2,
    OAuthStrategy this (VObject p) verify σ = (σ2, Ok ()) /\
    name_instance this (VObject p) σ2 = (σ', Ok ()).
Proof.
  rewrite Strategy_on_frozen.
  destruct (truthy (prop p "applicationURL")); [cbn [negb] | done].
  destruct (truthy (prop p "callbackURL")); [cbn [negb] | done].
  unfold mbind, js_bind.
  destruct (OAuthStrategy this (VObject p) verify σ) as [σ2 [[] | e]]; [| done].
  intros Hn. eauto.
Qed.

End Construction.

(** * The constructor's contract *)

Section ConstructionContract.
Context `{Host}.
Implicit Types (σ : store) (o : object) (l this : loc) (k : string).

(** C5. An options object that lacks [applicationURL], or that lacks
    [callbackURL], makes the constructor throw one of its two
    "requires a ... option" errors, whatever else the object holds: the
    [applicationURL] error when that option is absent or falsy, the
    [callbackURL] error otherwise.  The throw happens before anything is
    written and before the base constructor is reached: the store is the one
    the constructor was given. *)
Theorem Strategy_requires_both_urls this l o verify σ :
  σ !! l = Some o ->
  o !! "applicationURL" = None \/ o !! "callbackURL" = None ->
  Strategy this (VRef l) verify σ =
    (σ, Thrown (Error (if truthy (prop o "applicationURL")
                       then "Atlassian Oauth Strategy requires a callbackURL option"
                       else "Atlassian Oauth Strategy requires a applicationURL option"))).
Proof.
  intros Hl Hmiss. rewrite (Strategy_on_object _ _ _ _ _ Hl).
  destruct Hmiss as [Hm | Hm]; unfold prop at 1 2 3; rewrite ?Hm; simpl.
  - reflexivity.
  - destruct (truthy _); reflexivity.
Qed.

(** C10. Called with [undefined] or [null] for its options, the
    constructor continues with a new empty object and throws the
    [applicationURL] error: the completion it has on any options object in
    which [applicationURL] is absent, and not the [TypeError] of a read from
    [undefined] or [null]. *)
Theorem Strategy_without_options this options verify σ l o :
  options = VUndefined \/ options = VNull ->
  σ !! l = Some o ->
  o !! "applicationURL" = None ->
  (exists l0, σ !! l0 = None /\
     Strategy this options verify σ =
       (<[l0 := ∅]> σ,
        Thrown (Error "Atlassian Oauth Strategy requires a applicationURL option"))) /\
  (Strategy this options verify σ).2 = (Strategy this (VRef l) verify σ).2.
Proof.
  intros Hopt Hl Hm.
  assert (Hrun : Strategy this options verify σ =
            (<[fresh (dom σ) := ∅]> σ,
             Thrown (Error "Atlassian Oauth Strategy requires a applicationURL option"))).
  { unfold Strategy.
    erewrite bind_ok;
      [| rewrite or_else_falsy by (by destruct Hopt as [-> | ->]); reflexivity].
    erewrite bind_ok; [| apply read_object, lookup_insert_eq].
    reflexivity. }
  split.
  - exists (fresh (dom σ)). split; [| exact Hrun].
    apply not_elem_of_dom, is_fresh.
  - rewrite Hrun, (Strategy_without_applicationURL this l o verify σ Hl Hm). reflexivity.
Qed.

(** C6, as amended.  In every construction that completes, the base
    constructor is called on a store in which each of [requestTokenURL],
    [accessTokenURL] and [userAuthorizationURL] of the options object is the
    caller's value when that value is truthy, and otherwise (absent, or
    falsy such as the empty string) the string conversion of
    [applicationURL] followed by the option's fixed path.  For a string
    [applicationURL] that is the plain concatenation, with nothing added or
    removed at the seam. *)
Theorem Strategy_endpoint_options this l o verify σ σ' :
  σ !! l = Some o ->
  Strategy this (VRef l) verify σ = (σ', Ok ()) ->
  exists σ2,
    OAuthStrategy this (VRef l) verify (<[l := configured o]> σ) = (σ2, Ok ()) /\
    forall k suffix, (k, suffix) ∈ endpoints ->
      field (<[l := configured o]> σ) l k =
        (if truthy (prop o k) then prop o k
         else VStr (ToString (prop o "applicationURL") ++ suffix)) /\
      (forall a, prop o "applicationURL" = VStr a -> truthy (prop o k) = false ->
         field (<[l := configured o]> σ) l k = VStr (a ++ suffix)).
Proof.
  intros Hl Hrun.
  destruct (Strategy_completes _ _ _ _ _ _ Hl Hrun) as (_ & _ & σ2 & Hbase & _).
  exists σ2. split; [exact Hbase |].
  intros k suffix Hk.
  assert (Hf : field (<[l := configured o]> σ) l k = defaulted o k (derived o suffix)).
  { rewrite field_insert. unfold prop at 1. by rewrite (configured_endpoint _ _ _ Hk). }
  rewrite Hf. unfold defaulted, derived, concat. split.
  - reflexivity.
  - intros a Ha Hk'. by rewrite Hk', Ha.
Qed.

(** C8, as amended.  Every construction that completes was given an
    object, and the signature method that the base constructor finds depends
    on which kind.  For an object of the store the base constructor is
    called on a store in which [signatureMethod] of the options object is the
    caller's value when that value is truthy, and "RSA-SHA1" otherwise; in
    particular when the caller gave none.  For a frozen object the
    assignment of line 51 is dropped: the base constructor is called on the
    store as it was, with the object as the caller made it. *)
Theorem Strategy_signatureMethod this options verify σ σ' :
  Strategy this options verify σ = (σ', Ok ()) ->
  (exists l o σ2,
     options = VRef l /\ σ !! l = Some o /\
     OAuthStrategy this (VRef l) verify (<[l := configured o]> σ) = (σ2, Ok ()) /\
     field (<[l := configured o]> σ) l "signatureMethod" =
       (if truthy (prop o "signatureMethod") then prop o "signatureMethod"
        else VStr "RSA-SHA1") /\
     (o !! "signatureMethod" = None ->
        field (<[l := configured o]> σ) l "signatureMethod" = VStr "RSA-SHA1")) \/
  (exists p σ2,
     options = VObject p /\
     OAuthStrategy this (VObject p) verify σ = (σ2, Ok ()) /\
     get σ (VObject p) "signatureMethod" = Ok (prop p "signatureMethod")).
Proof.
  intros Hrun.
  destruct (Strategy_completes_on_object _ _ _ _ _ Hrun) as [(l & o & -> & Hl) | [p ->]].
  - left.
    destruct (Strategy_completes _ _ _ _ _ _ Hl Hrun) as (_ & _ & σ2 & Hbase & _).
    exists l, o, σ2. split; [reflexivity |]. split; [exact Hl |]. split; [exact Hbase |].
    assert (Hf : field (<[l := configured o]> σ) l "signatureMethod" =
                   defaulted o "signatureMethod" (VStr "RSA-SHA1")).
    { rewrite field_insert. unfold prop at 1. by rewrite configured_signatureMethod. }
    rewrite Hf. unfold defaulted. split; [reflexivity |].
    intros Hm. unfold prop. by rewrite Hm.
  - right.
    destruct (Strategy_completes_frozen _ _ _ _ _ Hrun) as (_ & _ & σ2 & Hbase & _).
    exists p, σ2. split; [reflexivity |]. split; [exact Hbase | reflexivity].
Qed.

(** C9, as amended.  The constructor writes into the caller's own
    options object when that object takes the writes.  Every construction
    that completes was given an object.  For an object of the store, the
    object at the caller's location has been given the four properties, with
    the derived or defaulted values, before the base constructor is called
    with that same location; nothing else in the store has changed by then;
    and when the base constructor returns the object as it got it, the four
    properties are there in the store that the construction leaves.  For a
    frozen object the four assignments are dropped: the base constructor is
    called on the store as it was, with the object as the caller made it. *)
Theorem Strategy_writes_callers_options this options verify σ σ' :
  Strategy this options verify σ = (σ', Ok ()) ->
  (exists l o σ2,
     options = VRef l /\ σ !! l = Some o /\
     OAuthStrategy this (VRef l) verify (<[l := configured o]> σ) = (σ2, Ok ()) /\
     configured o !! "requestTokenURL" =
       Some (defaulted o "requestTokenURL"
               (derived o "/plugins/servlet/oauth/request-token")) /\
     configured o !! "accessTokenURL" =
       Some (defaulted o "accessTokenURL"
               (derived o "/plugins/servlet/oauth/access-token")) /\
     configured o !! "userAuthorizationURL" =
       Some (defaulted o "userAuthorizationURL"
               (derived o "/plugins/servlet/oauth/authorize")) /\
     configured o !! "signatureMethod" =
       Some (defaulted o "signatureMethod" (VStr "RSA-SHA1")) /\
     (forall j, j ≠ l -> (<[l := configured o]> σ) !! j = σ !! j) /\
     (σ2 !! l = Some (configured o) ->
      forall k,
        k ∈ ["requestTokenURL"; "accessTokenURL"; "userAuthorizationURL";
             "signatureMethod"] ->
        (σ' !! l ≫= (.!! k)) = configured o !! k)) \/
  (exists p σ2,
     options = VObject p /\
     OAuthStrategy this (VObject p) verify σ = (σ2, Ok ()) /\
     name_instance this (VObject p) σ2 = (σ', Ok ()) /\
     forall k, get σ' (VObject p) k = get σ (VObject p) k).
Proof.
  intros Hrun.
  destruct (Strategy_completes_on_object _ _ _ _ _ Hrun) as [(l & o & -> & Hl) | [p ->]].
  - left.
    destruct (Strategy_completes _ _ _ _ _ _ Hl Hrun) as (_ & _ & σ2 & Hbase & Hname).
    exists l, o, σ2. split; [reflexivity |]. split; [exact Hl |]. split; [exact Hbase |].
    split; [apply configured_endpoint; unfold endpoints; set_solver |].
    split; [apply configured_endpoint; unfold endpoints; set_solver |].
    split; [apply configured_endpoint; unfold endpoints; set_solver |].
    split; [apply configured_signatureMethod |].
    split; [intros j Hj; by rewrite lookup_insert_ne |].
    intros Hkeep k Hk.
    assert (k ≠ "name" /\ k ≠ "_applicationURL") as [Hn Ha].
    { rewrite !elem_of_cons, elem_of_nil in Hk.
      destruct Hk as [-> | [-> | [-> | [-> | []]]]]; done. }
    rewrite (name_instance_frame _ _ _ _ l k Hname Hn Ha). by rewrite Hkeep.
  - right.
    destruct (Strategy_completes_frozen _ _ _ _ _ Hrun) as (_ & _ & σ2 & Hbase & Hname).
    exists p, σ2. split; [reflexivity |]. split; [exact Hbase |].
    split; [exact Hname | reflexivity].
Qed.

End ConstructionContract.

(** * Facts about [userProfile] *)

Section Fetch.
Context `{Host}.
Implicit Types (σ : store) (self : loc) (token tokenSecret params err body : value).

Lemma append_assoc (a b c : string) : ((a ++ b) ++ c = a ++ (b ++ c))%string.
Proof.
  induction a as [| x a IH]; [reflexivity |].
  change (String x ((a ++ b) ++ c) = String x (a ++ (b ++ c)))%string.
  by rewrite IH.
Qed.


(** The second callback ends in one of three ways: it reports an error, it
    reports a profile, or it throws. *)
Lemma on_profile_shape σ token tokenSecret err body :
  (exists e, on_profile σ token tokenSecret err body = invoke_done [e]) \/
  (exists p, on_profile σ token tokenSecret err body = invoke_done [VNull; VObject p]) \/
  (exists e, on_profile σ token tokenSecret err body = raise e).
Proof.
  unfold on_profile.
  destruct (truthy err); [eauto |].
  destruct (JSON_parse (ToString body)) as [json |]; [| eauto].
  destruct json; simpl; eauto.
Qed.

Lemma on_profile_error σ token tokenSecret err body :
  truthy err = true ->
  on_profile σ token tokenSecret err body =
    invoke_done [InternalOAuthError "failed to fetch user profile" err].
Proof. intros He. unfold on_profile. by rewrite He. Qed.

Lemma on_profile_not_json σ token tokenSecret err body :
  truthy err = false ->
  JSON_parse (ToString body) = None ->
  on_profile σ token tokenSecret err body = raise SyntaxError.
Proof. intros He Hp. unfold on_profile. by rewrite He, Hp. Qed.

(** The second callback on a body that parses to an object: every
    property of the profile in terms of the parsed object. *)
Lemma on_profile_object σ token tokenSecret err body (json : object) :
  truthy err = false ->
  JSON_parse (ToString body) = Some (VObject json) ->
  on_profile σ token tokenSecret err body =
    invoke_done
      [ VNull;
        VObject
          (<["tokenSecret" := tokenSecret]> (<["token" := token]>
          (<["_json" := VObject json]> (<["_raw" := body]>
          (<["emails" := VArray [VObject {["value" := prop json "emailAddress"]}]]>
          (<["avatarUrls" := prop json "slug"]>
          (<["displayName" := prop json "displayName"]>
          (<["username" := prop json "name"]>
          (<["id" := prop json "name"]>
          {["provider" := VStr "atlassian-oauth"]}))))))))) ].
Proof. intros He Hp. unfold on_profile. by rewrite He, Hp. Qed.

(** The second callback on the body [null], which is JSON: the read of
    [json.name] at line 102 throws. *)
Lemma on_profile_null σ token tokenSecret err body :
  truthy err = false ->
  JSON_parse (ToString body) = Some VNull ->
  on_profile σ token tokenSecret err body = raise TypeError.
Proof. intros He Hp. unfold on_profile. by rewrite He, Hp. Qed.

(** X9. The call returns to its caller in every case and throws nothing
    at it: both [try] blocks end in a handler that calls [done], which
    returns. *)
Lemma userProfile_returns σ self token tokenSecret params :
  outcome (userProfile σ self token tokenSecret params) = Ok ().
Proof.
  unfold userProfile, try_catch.
  destruct (outcome (perform _ _)) as [[] | e] eqn:E; [exact E | reflexivity].
Qed.

(** The second request with its [try] block, lines 94-118: the request is
    made, and then [done] is called at most once, or a fault escapes from
    the deferred callback. *)
Lemma profile_step_shape σ token tokenSecret (url : value) :
  let r := try_catch (perform (GET token tokenSecret url) (on_profile σ token tokenSecret))
             (fun e => invoke_done [e]) in
  outcome r = Ok () /\
  exists rest,
    (now r ++ later r)%list = Request (GET token tokenSecret url) :: rest /\
    (rest = [] \/ (exists e, rest = [Done [e]]) \/
     (exists p, rest = [Done [VNull; VObject p]]) \/
     (exists e, rest = [Uncaught e])) /\
    (_performSecureRequest (GET token tokenSecret url) ≠ NoAnswer -> rest ≠ []).
Proof.
  unfold try_catch, perform.
  destruct (_performSecureRequest _) as [e | [|] err body |]; simpl.
  - split; [reflexivity |]. eexists. split; [reflexivity |]. split; [eauto 10 | done].
  - destruct (on_profile_shape σ token tokenSecret err body)
      as [[e ->] | [[p ->] | [e ->]]]; simpl;
      (split; [reflexivity |]); eexists; (split; [reflexivity |]);
      (split; [eauto 10 | done]).
  - destruct (on_profile_shape σ token tokenSecret err body)
      as [[e ->] | [[p ->] | [e ->]]]; simpl;
      (split; [reflexivity |]); eexists; (split; [reflexivity |]);
      (split; [eauto 10 | done]).
  - split; [reflexivity |]. eexists. split; [reflexivity |]. split; [eauto 10 | done].
Qed.

(** X10. As long as [done] returns normally, every call invokes [done] at
    most once, with an error alone or with [null] and a profile; when [done]
    is not invoked, either a request was left unanswered or a fault has
    escaped from a deferred callback.  (A [done] that throws is outside the
    runs modelled here: on a synchronous answer the handlers of lines 116-122
    would call it a second time.) *)
Lemma userProfile_done_at_most_once σ self token tokenSecret params :
  let t := trace (userProfile σ self token tokenSecret params) in
  (done_calls t = [] \/ (exists e, done_calls t = [[e]]) \/
   (exists p, done_calls t = [[VNull; VObject p]])) /\
  (length (done_calls t) + length (uncaught t) <= 1)%nat.
Proof.
  unfold trace, userProfile, try_catch, perform.
  destruct (_performSecureRequest _) as [e | d err body |]; simpl.
  - split; [eauto | lia].
  - unfold on_whoami.
    destruct (truthy err).
    + destruct d; simpl; split; eauto; lia.
    + destruct (profile_step_shape σ token tokenSecret (stashProfileResource σ self body))
        as [Ho (rest & Hr & Hrest & _)].
      cbv zeta in Ho, Hr.
      destruct d; simpl; rewrite Ho; simpl; rewrite ?app_nil_r;
        try rewrite <- app_comm_cons; rewrite ?Hr;
        destruct Hrest as [-> | [[e ->] | [[p ->] | [e ->]]]]; simpl;
        split; eauto; lia.
  - split; [eauto | lia].
Qed.

(** X11. As long as [done] returns normally: when every request is
    answered or refused, a call ends in exactly one of two ways, [done] is
    invoked once, or a fault escapes once. *)
Lemma userProfile_done_or_escape σ self token tokenSecret params :
  (forall rq, _performSecureRequest rq ≠ NoAnswer) ->
  let t := trace (userProfile σ self token tokenSecret params) in
  (length (done_calls t) + length (uncaught t) = 1)%nat.
Proof.
  intros Hanswer.
  pose proof (Hanswer (GET token tokenSecret (stashWhoAMIResource σ self))) as H1.
  unfold trace, userProfile, try_catch, perform.
  destruct (_performSecureRequest _) as [e | d err body |]; simpl; [reflexivity | | done].
  unfold on_whoami.
  destruct (truthy err).
  - destruct d; reflexivity.
  - destruct (profile_step_shape σ token tokenSecret (stashProfileResource σ self body))
      as [Ho (rest & Hr & Hrest & Hne)].
    specialize (Hne (Hanswer _)).
    cbv zeta in Ho, Hr.
    destruct d; simpl; rewrite Ho; simpl; rewrite ?app_nil_r;
      try rewrite <- app_comm_cons; rewrite ?Hr;
      destruct Hrest as [-> | [[e ->] | [[p ->] | [e ->]]]]; done.
Qed.

(** X13. When the dispatch of the first request throws, line 121 passes
    the fault to [done] as it is, not wrapped in an [InternalOAuthError], and
    no second request is made. *)
Lemma userProfile_first_dispatch_fault σ self token tokenSecret params e :
  _performSecureRequest (GET token tokenSecret (stashWhoAMIResource σ self)) = Fault e ->
  trace (userProfile σ self token tokenSecret params) =
    [ Request (GET token tokenSecret (stashWhoAMIResource σ self)); Done [e] ].
Proof.
  intros Hreply. unfold trace, userProfile, try_catch, perform. by rewrite Hreply.
Qed.

(** X14. When the dispatch of the second request throws, line 117 passes
    the fault to [done] as it is, once, for a synchronous and for a deferred
    first answer alike. *)
Lemma userProfile_second_dispatch_fault σ self token tokenSecret params d err body e :
  _performSecureRequest (GET token tokenSecret (stashWhoAMIResource σ self))
    = Answer d err body ->
  truthy err = false ->
  _performSecureRequest (GET token tokenSecret (stashProfileResource σ self body))
    = Fault e ->
  trace (userProfile σ self token tokenSecret params) =
    [ Request (GET token tokenSecret (stashWhoAMIResource σ self));
      Request (GET token tokenSecret (stashProfileResource σ self body));
      Done [e] ].
Proof.
  intros Hreply1 Herr Hreply2.
  unfold trace, userProfile, try_catch, perform. rewrite Hreply1.
  unfold on_whoami. rewrite Herr.
  unfold try_catch, perform. rewrite Hreply2.
  destruct d; reflexivity.
Qed.

(** X12. When the second request is answered with an error, [done] is
    invoked once, with the [InternalOAuthError] whose message is "failed to
    fetch user profile" and whose cause is that error; the body is not
    parsed. *)
Lemma userProfile_profile_failure σ self token tokenSecret params d1 err1 username d2 err2 body :
  _performSecureRequest (GET token tokenSecret (stashWhoAMIResource σ self))
    = Answer d1 err1 username ->
  truthy err1 = false ->
  _performSecureRequest (GET token tokenSecret (stashProfileResource σ self username))
    = Answer d2 err2 body ->
  truthy err2 = true ->
  trace (userProfile σ self token tokenSecret params) =
    [ Request (GET token tokenSecret (stashWhoAMIResource σ self));
      Request (GET token tokenSecret (stashProfileResource σ self username));
      Done [InternalOAuthError "failed to fetch user profile" err2] ].
Proof.
  intros Hreply1 Herr1 Hreply2 Herr2.
  unfold trace, userProfile, try_catch, perform. rewrite Hreply1.
  unfold on_whoami. rewrite Herr1.
  unfold try_catch, perform. rewrite Hreply2.
  rewrite (on_profile_error _ _ _ _ _ Herr2).
  destruct d1, d2; reflexivity.
Qed.

End Fetch.

(** * The contract of [userProfile] *)

Section FetchContract.
Context `{Host}.
Implicit Types (σ : store) (self : loc) (token tokenSecret params err body : value).



(** C2, as the code has it.  When both requests are answered without an
    error and the second body is not JSON, the [SyntaxError] of [JSON.parse]
    is thrown inside the second callback.  The [try] block of lines 94-118
    encloses the dispatch, not the callback: with a synchronous answer the
    handler passes the error to [done]; with a deferred answer, the way the
    OAuth client answers, the block has been left, [done] is never invoked
    and the error leaves the callback uncaught. *)
Theorem userProfile_parse_failure σ self token tokenSecret params d1 err1 username d2 err2 body :
  _performSecureRequest (GET token tokenSecret (stashWhoAMIResource σ self))
    = Answer d1 err1 username ->
  truthy err1 = false ->
  _performSecureRequest (GET token tokenSecret (stashProfileResource σ self username))
    = Answer d2 err2 body ->
  truthy err2 = false ->
  JSON_parse (ToString body) = None ->
  trace (userProfile σ self token tokenSecret params) =
    [ Request (GET token tokenSecret (stashWhoAMIResource σ self));
      Request (GET token tokenSecret (stashProfileResource σ self username));
      match d2 with
      | Synchronous => Done [SyntaxError]
      | Deferred => Uncaught SyntaxError
      end ].
Proof.
  intros Hreply1 Herr1 Hreply2 Herr2 Hparse.
  unfold trace, userProfile, try_catch, perform. rewrite Hreply1.
  unfold on_whoami. rewrite Herr1.
  unfold try_catch, perform. rewrite Hreply2.
  rewrite (on_profile_not_json _ _ _ _ _ Herr2 Hparse).
  destruct d1, d2; reflexivity.
Qed.

(** C1, as amended.  When the first request is answered with the body
    "jdoe" and the second with the profile text of the running example, and
    [JSON.parse] reads that text as the object it denotes, [done] is invoked
    once, with [null] and a profile.  The profile has [provider]
    "atlassian-oauth", [id] and [username] "jdoe", [displayName] "Jane Doe",
    [avatarUrls] "jdoe", [emails] the one-element array of an object whose
    [value] is "jane@example.com", the response text under [_raw], the parsed
    object under [_json], the caller's [token] and [tokenSecret], and no
    other property. *)
Theorem userProfile_jdoe σ self token tokenSecret params d1 err1 d2 err2 :
  _performSecureRequest (GET token tokenSecret (stashWhoAMIResource σ self))
    = Answer d1 err1 (VStr "jdoe") ->
  truthy err1 = false ->
  _performSecureRequest (GET token tokenSecret (stashProfileResource σ self (VStr "jdoe")))
    = Answer d2 err2 (VStr Sample.jdoe_body) ->
  truthy err2 = false ->
  JSON_parse Sample.jdoe_body = Some (VObject Sample.jdoe_json) ->
  exists profile : object,
    trace (userProfile σ self token tokenSecret params) =
      [ Request (GET token tokenSecret (stashWhoAMIResource σ self));
        Request (GET token tokenSecret (stashProfileResource σ self (VStr "jdoe")));
        Done [VNull; VObject profile] ] /\
    profile !! "provider" = Some (VStr "atlassian-oauth") /\
    profile !! "id" = Some (VStr "jdoe") /\
    profile !! "username" = Some (VStr "jdoe") /\
    profile !! "displayName" = Some (VStr "Jane Doe") /\
    profile !! "avatarUrls" = Some (VStr "jdoe") /\
    profile !! "emails" = Some (VArray [VObject {["value" := VStr "jane@example.com"]}]) /\
    profile !! "_raw" = Some (VStr Sample.jdoe_body) /\
    profile !! "_json" = Some (VObject Sample.jdoe_json) /\
    get σ (VObject Sample.jdoe_json) "name" = Ok (VStr "jdoe") /\
    profile !! "token" = Some token /\
    profile !! "tokenSecret" = Some tokenSecret /\
    dom profile =
      list_to_set [ "provider"; "id"; "username"; "displayName"; "avatarUrls"; "emails";
                    "_raw"; "_json"; "token"; "tokenSecret" ].
Proof.
  intros Hreply1 Herr1 Hreply2 Herr2 Hparse.
  assert (Hcb : exists profile : object,
            on_profile σ token tokenSecret err2 (VStr Sample.jdoe_body) =
              invoke_done [VNull; VObject profile] /\
            profile =
              <["tokenSecret" := tokenSecret]> (<["token" := token]>
              (<["_json" := VObject Sample.jdoe_json]> (<["_raw" := VStr Sample.jdoe_body]>
              (<["emails" := VArray [VObject {["value" := VStr "jane@example.com"]}]]>
              (<["avatarUrls" := VStr "jdoe"]> (<["displayName" := VStr "Jane Doe"]>
              (<["username" := VStr "jdoe"]> (<["id" := VStr "jdoe"]>
              {["provider" := VStr "atlassian-oauth"]}))))))))).
  { eexists. split; [| reflexivity].
    unfold on_profile. rewrite Herr2. simpl ToString. rewrite Hparse. reflexivity. }
  destruct Hcb as (profile & Hcb & Hprofile).
  exists profile. split.
  - unfold trace, userProfile, try_catch, perform. rewrite Hreply1.
    unfold on_whoami. rewrite Herr1.
    unfold try_catch, perform. rewrite Hreply2, Hcb.
    destruct d1, d2; reflexivity.
  - subst profile. repeat split.
Qed.

End FetchContract.

(** * Concrete runs *)

Lemma Strategy_requires_both_urls_witness :
  Sample.store_with Sample.options_without_callbackURL !! 1
    = Some Sample.options_without_callbackURL /\
  (Sample.options_without_callbackURL !! "applicationURL" = None \/
   Sample.options_without_callbackURL !! "callbackURL" = None) /\
  Strategy (H := Sample.jdoe_host) 2 (VRef 1) Sample.verify
      (Sample.store_with Sample.options_without_callbackURL) =
    (Sample.store_with Sample.options_without_callbackURL,
     Thrown (Error "Atlassian Oauth Strategy requires a callbackURL option")).
Proof.
  split; [reflexivity |]. split; [right; reflexivity |].
  exact (Strategy_requires_both_urls (H := Sample.jdoe_host) 2 1
           Sample.options_without_callbackURL Sample.verify
           (Sample.store_with Sample.options_without_callbackURL)
           eq_refl (or_intror eq_refl)).
Defined.

Lemma Strategy_without_options_witness :
  (VNull = VUndefined \/ VNull = VNull) /\
  Sample.store_with Sample.options_without_applicationURL !! 1
    = Some Sample.options_without_applicationURL /\
  Sample.options_without_applicationURL !! "applicationURL" = None /\
  (exists l0,
     Sample.store_with Sample.options_without_applicationURL !! l0 = None /\
     Strategy (H := Sample.jdoe_host) 2 VNull Sample.verify
         (Sample.store_with Sample.options_without_applicationURL) =
       (<[l0 := ∅]> (Sample.store_with Sample.options_without_applicationURL),
        Thrown (Error "Atlassian Oauth Strategy requires a applicationURL option"))) /\
  (Strategy (H := Sample.jdoe_host) 2 VNull Sample.verify
     (Sample.store_with Sample.options_without_applicationURL)).2 =
  (Strategy (H := Sample.jdoe_host) 2 (VRef 1) Sample.verify
     (Sample.store_with Sample.options_without_applicationURL)).2.
Proof.
  split; [right; reflexivity |]. split; [reflexivity |]. split; [reflexivity |].
  exact (Strategy_without_options (H := Sample.jdoe_host) 2 VNull Sample.verify
           (Sample.store_with Sample.options_without_applicationURL) 1
           Sample.options_without_applicationURL
           (or_intror eq_refl) eq_refl eq_refl).
Defined.

Lemma completes_eq {A : Type} (r : store * result A) (a : A) :
  r.2 = Ok a -> r = (r.1, Ok a).
Proof. destruct r as [σ c]. simpl. by intros ->. Defined.

Lemma Strategy_endpoint_options_witness :
  Sample.store_with Sample.options_with_accessTokenURL !! 1
    = Some Sample.options_with_accessTokenURL /\
  Strategy (H := Sample.jdoe_host) 2 (VRef 1) Sample.verify
      (Sample.store_with Sample.options_with_accessTokenURL)
    = (Sample.constructed Sample.options_with_accessTokenURL, Ok ()) /\
  exists σ2,
    OAuthStrategy (Host := Sample.jdoe_host) 2 (VRef 1) Sample.verify
        (<[1 := configured (H := Sample.jdoe_host) Sample.options_with_accessTokenURL]>
           (Sample.store_with Sample.options_with_accessTokenURL))
      = (σ2, Ok ()) /\
    field (<[1 := configured (H := Sample.jdoe_host) Sample.options_with_accessTokenURL]>
             (Sample.store_with Sample.options_with_accessTokenURL)) 1 "accessTokenURL"
      = VStr "https://sso.example.com/oauth/access" /\
    field (<[1 := configured (H := Sample.jdoe_host) Sample.options_with_accessTokenURL]>
             (Sample.store_with Sample.options_with_accessTokenURL)) 1 "requestTokenURL"
      = VStr "https://example.atlassian.net/plugins/servlet/oauth/request-token".
Proof.
  assert (Hrun : Strategy (H := Sample.jdoe_host) 2 (VRef 1) Sample.verify
                   (Sample.store_with Sample.options_with_accessTokenURL)
                 = (Sample.constructed Sample.options_with_accessTokenURL, Ok ())).
  { apply completes_eq. vm_compute. reflexivity. }
  split; [reflexivity |]. split; [exact Hrun |].
  destruct (Strategy_endpoint_options (H := Sample.jdoe_host) 2 1
              Sample.options_with_accessTokenURL Sample.verify
              (Sample.store_with Sample.options_with_accessTokenURL)
              (Sample.constructed Sample.options_with_accessTokenURL)
              eq_refl Hrun) as (σ2 & Hbase & Hk).
  exists σ2. split; [exact Hbase |]. split.
  - destruct (Hk "accessTokenURL" "/plugins/servlet/oauth/access-token") as [E _];
      [unfold endpoints; repeat constructor | exact E].
  - destruct (Hk "requestTokenURL" "/plugins/servlet/oauth/request-token") as [E _];
      [unfold endpoints; repeat constructor | exact E].
Defined.

(** C6, counterexample.  The caller gives the empty string for
    [requestTokenURL]; the construction completes, and the option is then
    the derived URL and not the value that was given. *)
Lemma Strategy_empty_requestTokenURL_replaced :
  Sample.options_with_empty_requestTokenURL !! "requestTokenURL" = Some (VStr "") /\
  Strategy (H := Sample.jdoe_host) 2 (VRef 1) Sample.verify
      (Sample.store_with Sample.options_with_empty_requestTokenURL)
    = (Sample.constructed Sample.options_with_empty_requestTokenURL, Ok ()) /\
  field (Sample.constructed Sample.options_with_empty_requestTokenURL) 1 "requestTokenURL"
    = VStr "https://example.atlassian.net/plugins/servlet/oauth/request-token" /\
  field (Sample.constructed Sample.options_with_empty_requestTokenURL) 1 "requestTokenURL"
    ≠ VStr "".
Proof.
  assert (Hf : field (Sample.constructed Sample.options_with_empty_requestTokenURL) 1
                 "requestTokenURL"
               = VStr "https://example.atlassian.net/plugins/servlet/oauth/request-token")
    by (vm_compute; reflexivity).
  split; [reflexivity |].
  split; [apply completes_eq; vm_compute; reflexivity |].
  split; [exact Hf |].
  rewrite Hf. discriminate.
Qed.

Lemma Strategy_signatureMethod_witness :
  Strategy (H := Sample.jdoe_host) 2 (VRef 1) Sample.verify
      (Sample.store_with Sample.options_with_signatureMethod)
    = (Sample.constructed Sample.options_with_signatureMethod, Ok ()) /\
  exists σ2,
    OAuthStrategy (Host := Sample.jdoe_host) 2 (VRef 1) Sample.verify
        (<[1 := configured (H := Sample.jdoe_host) Sample.options_with_signatureMethod]>
           (Sample.store_with Sample.options_with_signatureMethod))
      = (σ2, Ok ()) /\
    field (<[1 := configured (H := Sample.jdoe_host) Sample.options_with_signatureMethod]>
             (Sample.store_with Sample.options_with_signatureMethod)) 1 "signatureMethod"
      = VStr "HMAC-SHA1".
Proof.
  assert (Hrun : Strategy (H := Sample.jdoe_host) 2 (VRef 1) Sample.verify
                   (Sample.store_with Sample.options_with_signatureMethod)
                 = (Sample.constructed Sample.options_with_signatureMethod, Ok ())).
  { apply completes_eq. vm_compute. reflexivity. }
  split; [exact Hrun |].
  destruct (Strategy_signatureMethod (H := Sample.jdoe_host) 2 (VRef 1) Sample.verify
              (Sample.store_with Sample.options_with_signatureMethod)
              (Sample.constructed Sample.options_with_signatureMethod) Hrun)
    as [(l & o & σ2 & Hopt & Hl & Hbase & E & _) | (p & σ2 & Hopt & _)];
    [| discriminate Hopt].
  injection Hopt as <-.
  assert (Ho : o = Sample.options_with_signatureMethod)
    by (apply (inj Some); rewrite <- Hl; reflexivity).
  subst o. exists σ2. split; [exact Hbase | exact E].
Defined.

(** C8, counterexample.  The caller gives the empty string for
    [signatureMethod]; the construction completes, and the option is then
    "RSA-SHA1" and not the value that was given.  And the caller gives a
    frozen object with the three endpoint URLs and no [signatureMethod]; the
    construction completes, and the option is still [undefined]. *)
Lemma Strategy_empty_signatureMethod_replaced :
  (Sample.options_with_empty_signatureMethod !! "signatureMethod" = Some (VStr "") /\
   Strategy (H := Sample.jdoe_host) 2 (VRef 1) Sample.verify
       (Sample.store_with Sample.options_with_empty_signatureMethod)
     = (Sample.constructed Sample.options_with_empty_signatureMethod, Ok ()) /\
   field (Sample.constructed Sample.options_with_empty_signatureMethod) 1 "signatureMethod"
     = VStr "RSA-SHA1" /\
   field (Sample.constructed Sample.options_with_empty_signatureMethod) 1 "signatureMethod"
     ≠ VStr "") /\
  (Sample.options_with_endpoints !! "signatureMethod" = None /\
   (Sample.constructed_frozen Sample.options_with_endpoints).2 = Ok () /\
   get (Sample.constructed_frozen Sample.options_with_endpoints).1
       (VObject Sample.options_with_endpoints) "signatureMethod" = Ok VUndefined /\
   VUndefined ≠ VStr "RSA-SHA1").
Proof.
  assert (Hf : field (Sample.constructed Sample.options_with_empty_signatureMethod) 1
                 "signatureMethod" = VStr "RSA-SHA1")
    by (vm_compute; reflexivity).
  split.
  - split; [reflexivity |].
    split; [apply completes_eq; vm_compute; reflexivity |].
    split; [exact Hf |].
    rewrite Hf. discriminate.
  - split; [reflexivity |].
    split; [vm_compute; reflexivity |].
    split; [reflexivity | discriminate].
Qed.

Lemma Strategy_writes_callers_options_witness :
  Strategy (H := Sample.jdoe_host) 2 (VRef 1) Sample.verify
      (Sample.store_with Sample.complete_options)
    = (Sample.constructed Sample.complete_options, Ok ()) /\
  (Sample.constructed Sample.complete_options !! 1 ≫= (.!! "requestTokenURL"))
    = Some (VStr "https://example.atlassian.net/plugins/servlet/oauth/request-token") /\
  (Sample.constructed Sample.complete_options !! 1 ≫= (.!! "accessTokenURL"))
    = Some (VStr "https://example.atlassian.net/plugins/servlet/oauth/access-token") /\
  (Sample.constructed Sample.complete_options !! 1 ≫= (.!! "userAuthorizationURL"))
    = Some (VStr "https://example.atlassian.net/plugins/servlet/oauth/authorize") /\
  (Sample.constructed Sample.complete_options !! 1 ≫= (.!! "signatureMethod"))
    = Some (VStr "RSA-SHA1").
Proof.
  assert (Hrun : Strategy (H := Sample.jdoe_host) 2 (VRef 1) Sample.verify
                   (Sample.store_with Sample.complete_options)
                 = (Sample.constructed Sample.complete_options, Ok ())).
  { apply completes_eq. vm_compute. reflexivity. }
  split; [exact Hrun |].
  destruct (Strategy_writes_callers_options (H := Sample.jdoe_host) 2 (VRef 1) Sample.verify
              (Sample.store_with Sample.complete_options)
              (Sample.constructed Sample.complete_options) Hrun)
    as [(l & o & σ2 & Hopt & Hl & Hbase & E1 & E2 & E3 & E4 & _ & Hfinal)
       | (p & σ2 & Hopt & _)];
    [| discriminate Hopt].
  injection Hopt as <-.
  assert (Ho : o = Sample.complete_options)
    by (apply (inj Some); rewrite <- Hl; reflexivity).
  subst o.
  assert (Hkeep : σ2 !! 1 = Some (configured (H := Sample.jdoe_host) Sample.complete_options)).
  { replace σ2 with
      (OAuthStrategy (Host := Sample.jdoe_host) 2 (VRef 1) Sample.verify
         (<[1 := configured (H := Sample.jdoe_host) Sample.complete_options]>
            (Sample.store_with Sample.complete_options))).1
      by (rewrite Hbase; reflexivity).
    vm_compute. reflexivity. }
  refine (conj _ (conj _ (conj _ _))).
  - rewrite (Hfinal Hkeep "requestTokenURL") by repeat constructor. exact E1.
  - rewrite (Hfinal Hkeep "accessTokenURL") by repeat constructor. exact E2.
  - rewrite (Hfinal Hkeep "userAuthorizationURL") by repeat constructor. exact E3.
  - rewrite (Hfinal Hkeep "signatureMethod") by repeat constructor. exact E4.
Defined.

(** C9, counterexample.  The caller gives a frozen object with the three
    endpoint URLs and no [signatureMethod]; the construction completes, and
    the object has no [signatureMethod] afterwards: the fourth of the four
    properties has not been written into it. *)
Lemma Strategy_frozen_options_not_written :
  Sample.options_with_endpoints !! "signatureMethod" = None /\
  (Sample.constructed_frozen Sample.options_with_endpoints).2 = Ok () /\
  get (Sample.constructed_frozen Sample.options_with_endpoints).1
      (VObject Sample.options_with_endpoints) "signatureMethod" = Ok VUndefined /\
  field (Sample.constructed_frozen Sample.options_with_endpoints).1 2 "name"
    = VStr "atlassian-oauth".
Proof.
  split; [reflexivity |].
  split; [vm_compute; reflexivity |].
  split; [reflexivity |].
  vm_compute. reflexivity.
Qed.




Lemma userProfile_parse_failure_witness :
  _performSecureRequest (Host := Sample.not_json_host)
      (GET Sample.token Sample.tokenSecret
         (stashWhoAMIResource (H := Sample.not_json_host) Sample.store_of_instance 2))
    = Answer Deferred VNull (VStr "jdoe") /\
  truthy VNull = false /\
  _performSecureRequest (Host := Sample.not_json_host)
      (GET Sample.token Sample.tokenSecret
         (stashProfileResource (H := Sample.not_json_host) Sample.store_of_instance 2
            (VStr "jdoe")))
    = Answer Deferred VNull (VStr "not-json") /\
  JSON_parse (Host := Sample.not_json_host)
      (ToString (H := Sample.not_json_host) (VStr "not-json")) = None /\
  Sample.fetch Sample.not_json_host =
    [ Request (GET Sample.token Sample.tokenSecret (VStr Sample.whoami_url));
      Request (GET Sample.token Sample.tokenSecret (VStr Sample.jdoe_url));
      Uncaught SyntaxError ].
Proof.
  split; [reflexivity |]. split; [reflexivity |].
  split; [reflexivity |]. split; [reflexivity |].
  exact (userProfile_parse_failure (H := Sample.not_json_host) Sample.store_of_instance 2
           Sample.token Sample.tokenSecret VUndefined Deferred VNull (VStr "jdoe")
           Deferred VNull (VStr "not-json") eq_refl eq_refl eq_refl eq_refl eq_refl).
Defined.

(** C4, at the failing input.  Both requests are answered from the event
    loop without an error and the second body is "not-json": [done] is not
    invoked at all, and the [SyntaxError] leaves the callback uncaught. *)
Theorem userProfile_not_json_done_never_invoked :
  done_calls (Sample.fetch Sample.not_json_host) = [] /\
  uncaught (Sample.fetch Sample.not_json_host) = [SyntaxError].
Proof. split; reflexivity. Qed.

Lemma userProfile_jdoe_witness :
  _performSecureRequest (Host := Sample.jdoe_host)
      (GET Sample.token Sample.tokenSecret
         (stashWhoAMIResource (H := Sample.jdoe_host) Sample.store_of_instance 2))
    = Answer Deferred VNull (VStr "jdoe") /\
  truthy VNull = false /\
  _performSecureRequest (Host := Sample.jdoe_host)
      (GET Sample.token Sample.tokenSecret
         (stashProfileResource (H := Sample.jdoe_host) Sample.store_of_instance 2
            (VStr "jdoe")))
    = Answer Deferred VNull (VStr Sample.jdoe_body) /\
  JSON_parse (Host := Sample.jdoe_host) Sample.jdoe_body = Some (VObject Sample.jdoe_json) /\
  exists profile : object,
    Sample.fetch Sample.jdoe_host =
      [ Request (GET Sample.token Sample.tokenSecret (VStr Sample.whoami_url));
        Request (GET Sample.token Sample.tokenSecret (VStr Sample.jdoe_url));
        Done [VNull; VObject profile] ] /\
    profile !! "id" = Some (VStr "jdoe") /\
    profile !! "emails" = Some (VArray [VObject {["value" := VStr "jane@example.com"]}]) /\
    profile !! "_raw" = Some (VStr Sample.jdoe_body) /\
    profile !! "_json" = Some (VObject Sample.jdoe_json).
Proof.
  assert (Hparse : JSON_parse (Host := Sample.jdoe_host) Sample.jdoe_body
                   = Some (VObject Sample.jdoe_json)) by (vm_compute; reflexivity).
  split; [reflexivity |]. split; [reflexivity |].
  split; [reflexivity |]. split; [exact Hparse |].
  destruct (userProfile_jdoe (H := Sample.jdoe_host) Sample.store_of_instance 2
              Sample.token Sample.tokenSecret VUndefined Deferred VNull Deferred VNull
              eq_refl eq_refl eq_refl eq_refl Hparse)
    as (profile & Htrace & _ & Hid & _ & _ & _ & Hemails & Hraw & Hjson & _).
  exists profile. auto.
Defined.

(** C1, counterexample.  In the run of the running example [done] is
    invoked once, and the profile it is given has no property [rawBody] and
    no property [rawJson]: [profile.rawJson] is [undefined], and reading
    [name] from it is a [TypeError]. *)
Lemma userProfile_jdoe_no_rawJson :
  exists profile : object,
    done_calls (Sample.fetch Sample.jdoe_host) = [[VNull; VObject profile]] /\
    profile !! "rawBody" = None /\
    profile !! "rawJson" = None /\
    get Sample.store_of_instance (VObject profile) "rawJson" = Ok VUndefined /\
    get Sample.store_of_instance VUndefined "name" = Thrown TypeError.
Proof.
  eexists. split; [vm_compute; reflexivity |].
  repeat split.
Qed.

(** * More about the constructor *)

Section ConstructionMore.
Context `{Host}.
Implicit Types (σ : store) (o : object) (l this : loc) (k : string).

Lemma truthy_append (a suffix : string) :
  suffix ≠ "" -> truthy (VStr (a ++ suffix)) = true.
Proof.
  intros Hs. destruct a as [| c a]; [| reflexivity].
  destruct suffix; [done | reflexivity].
Qed.

Lemma defaulted_truthy o k fallback :
  truthy fallback = true -> truthy (defaulted o k fallback) = true.
Proof.
  intros Hf. unfold defaulted.
  destruct (truthy (prop o k)) eqn:E; [exact E | exact Hf].
Qed.

Lemma configured_truthy o k :
  k ∈ ["requestTokenURL"; "accessTokenURL"; "userAuthorizationURL"; "signatureMethod"] ->
  truthy (prop (configured o) k) = true.
Proof.
  rewrite !elem_of_cons, elem_of_nil.
  intros [-> | [-> | [-> | [-> | []]]]]; unfold prop at 1.
  - rewrite (configured_endpoint o _ "/plugins/servlet/oauth/request-token")
      by (unfold endpoints; set_solver).
    apply defaulted_truthy, truthy_append. done.
  - rewrite (configured_endpoint o _ "/plugins/servlet/oauth/access-token")
      by (unfold endpoints; set_solver).
    apply defaulted_truthy, truthy_append. done.
  - rewrite (configured_endpoint o _ "/plugins/servlet/oauth/authorize")
      by (unfold endpoints; set_solver).
    apply defaulted_truthy, truthy_append. done.
  - rewrite configured_signatureMethod. by apply defaulted_truthy.
Qed.

Lemma configured_prop_other o k :
  k ∉ ["requestTokenURL"; "accessTokenURL"; "userAuthorizationURL"; "signatureMethod"] ->
  prop (configured o) k = prop o k.
Proof. intros Hk. unfold prop. by rewrite configured_other. Qed.

(** The four assignments change nothing on an object they have already
    been applied to. *)
Lemma configured_idempotent o : configured (configured o) = configured o.
Proof.
  apply map_eq. intros k.
  destruct (decide (k ∈ ["requestTokenURL"; "accessTokenURL"; "userAuthorizationURL";
                         "signatureMethod"])) as [Hk | Hk].
  - pose proof (configured_truthy o k Hk) as Ht.
    rewrite !elem_of_cons, elem_of_nil in Hk.
    destruct Hk as [-> | [-> | [-> | [-> | []]]]].
    + rewrite (configured_endpoint (configured o) _ "/plugins/servlet/oauth/request-token")
        by (unfold endpoints; set_solver).
      unfold defaulted at 1. rewrite Ht. unfold prop.
      by destruct (configured o !! "requestTokenURL") eqn:E;
        [| rewrite (configured_endpoint o _ "/plugins/servlet/oauth/request-token") in E
             by (unfold endpoints; set_solver)].
    + rewrite (configured_endpoint (configured o) _ "/plugins/servlet/oauth/access-token")
        by (unfold endpoints; set_solver).
      unfold defaulted at 1. rewrite Ht. unfold prop.
      by destruct (configured o !! "accessTokenURL") eqn:E;
        [| rewrite (configured_endpoint o _ "/plugins/servlet/oauth/access-token") in E
             by (unfold endpoints; set_solver)].
    + rewrite (configured_endpoint (configured o) _ "/plugins/servlet/oauth/authorize")
        by (unfold endpoints; set_solver).
      unfold defaulted at 1. rewrite Ht. unfold prop.
      by destruct (configured o !! "userAuthorizationURL") eqn:E;
        [| rewrite (configured_endpoint o _ "/plugins/servlet/oauth/authorize") in E
             by (unfold endpoints; set_solver)].
    + rewrite (configured_signatureMethod (configured o)).
      unfold defaulted at 1. rewrite Ht. unfold prop.
      by destruct (configured o !! "signatureMethod") eqn:E;
        [| rewrite configured_signatureMethod in E].
  - by rewrite configured_other.
Qed.

(** X1. An [applicationURL] or [callbackURL] that is present but falsy,
    such as the empty string, is rejected like an absent one: the
    constructor throws the [applicationURL] error when [applicationURL] is
    falsy and the [callbackURL] error otherwise, and leaves the store as it
    was. *)
Theorem Strategy_rejects_falsy_urls this l o verify σ :
  σ !! l = Some o ->
  truthy (prop o "applicationURL") && truthy (prop o "callbackURL") = false ->
  Strategy this (VRef l) verify σ =
    (σ, Thrown (Error (if truthy (prop o "applicationURL")
                       then "Atlassian Oauth Strategy requires a callbackURL option"
                       else "Atlassian Oauth Strategy requires a applicationURL option"))).
Proof.
  intros Hl Hfalsy. rewrite (Strategy_on_object _ _ _ _ _ Hl).
  destruct (truthy (prop o "applicationURL")); [| reflexivity].
  destruct (truthy (prop o "callbackURL")); [discriminate Hfalsy | reflexivity].
Qed.

(** X2. Options that are truthy but not an object (a string, a number,
    [true], an array) are not replaced by [{}]: the read of
    [applicationURL] from them gives [undefined] and the constructor throws
    the [applicationURL] error, with the store as it was. *)
Theorem Strategy_rejects_primitive_options this options verify σ :
  truthy options = true ->
  (forall l, options ≠ VRef l) ->
  (forall p, options ≠ VObject p) ->
  Strategy this options verify σ =
    (σ, Thrown (Error "Atlassian Oauth Strategy requires a applicationURL option")).
Proof.
  intros Ht Hr Ho. unfold Strategy.
  erewrite bind_ok; [| by apply or_else_truthy].
  destruct options; try discriminate Ht; try reflexivity.
  - by destruct (Hr l).
  - by destruct (Ho props).
Qed.

(** X3. For an options object of the store, one that takes the writes
    of lines 48-51: whenever both guards pass, the constructor runs the base
    constructor on a store in which [requestTokenURL], [accessTokenURL],
    [userAuthorizationURL] and [signatureMethod] of the options object are
    all truthy, so that the base constructor does not find one of them
    missing.  (A frozen options object is another matter; see
    [Strategy_leaves_frozen_options].) *)
Theorem Strategy_hands_over_truthy_options this l o verify σ :
  σ !! l = Some o ->
  truthy (prop o "applicationURL") = true ->
  truthy (prop o "callbackURL") = true ->
  Strategy this (VRef l) verify σ =
    (OAuthStrategy this (VRef l) verify ≫= fun _ => name_instance this (VRef l))
      (<[l := configured o]> σ) /\
  forall k,
    k ∈ ["requestTokenURL"; "accessTokenURL"; "userAuthorizationURL"; "signatureMethod"] ->
    truthy (field (<[l := configured o]> σ) l k) = true.
Proof.
  intros Hl Ha Hc. split.
  - rewrite (Strategy_on_object _ _ _ _ _ Hl). by rewrite Ha, Hc.
  - intros k Hk. rewrite field_insert. by apply configured_truthy.
Qed.

(** X4. The constructor leaves every other property of the options
    object as the caller set it: in the store that the base constructor is
    run on, each property other than the four assigned ones, such as
    [applicationURL], [callbackURL], [consumerKey] and [consumerSecret], is
    present or absent as before and has the value it had. *)
Theorem Strategy_keeps_other_options this l o verify σ :
  σ !! l = Some o ->
  truthy (prop o "applicationURL") = true ->
  truthy (prop o "callbackURL") = true ->
  Strategy this (VRef l) verify σ =
    (OAuthStrategy this (VRef l) verify ≫= fun _ => name_instance this (VRef l))
      (<[l := configured o]> σ) /\
  forall k,
    k ∉ ["requestTokenURL"; "accessTokenURL"; "userAuthorizationURL"; "signatureMethod"] ->
    (<[l := configured o]> σ !! l ≫= (.!! k)) = o !! k.
Proof.
  intros Hl Ha Hc. split.
  - rewrite (Strategy_on_object _ _ _ _ _ Hl). by rewrite Ha, Hc.
  - intros k Hk. rewrite lookup_insert_eq. simpl. by apply configured_other.
Qed.

(** X5. When the base constructor throws, the constructor throws the same
    value and stops there: the store it leaves is the one the base
    constructor left, so lines 54-55 have written nothing to it, while the
    base constructor was called on the store in which the four assignments
    to the caller's options object had been made. *)
Theorem Strategy_base_failure this l o verify σ σ2 e :
  σ !! l = Some o ->
  truthy (prop o "applicationURL") = true ->
  truthy (prop o "callbackURL") = true ->
  OAuthStrategy this (VRef l) verify (<[l := configured o]> σ) = (σ2, Thrown e) ->
  Strategy this (VRef l) verify σ = (σ2, Thrown e).
Proof.
  intros Hl Ha Hc Hbase. rewrite (Strategy_on_object _ _ _ _ _ Hl).
  rewrite Ha, Hc. cbn [negb]. unfold mbind, js_bind. by rewrite Hbase.
Qed.

(** X6. A construction from an options object that an earlier construction
    has completed writes nothing into it: the base constructor is run on the
    store as it is, with the endpoint URLs and the signature method that the
    earlier construction left. *)
Theorem Strategy_again_on_configured_options this l o verify σ :
  σ !! l = Some (configured o) ->
  truthy (prop o "applicationURL") = true ->
  truthy (prop o "callbackURL") = true ->
  Strategy this (VRef l) verify σ =
    (OAuthStrategy this (VRef l) verify ≫= fun _ => name_instance this (VRef l)) σ.
Proof.
  intros Hl Ha Hc. rewrite (Strategy_on_object _ _ _ _ _ Hl).
  rewrite !configured_prop_other, Ha, Hc
    by (rewrite !not_elem_of_cons; repeat split; try done; apply not_elem_of_nil).
  cbn [negb].
  by rewrite configured_idempotent, (insert_id _ _ _ Hl).
Qed.

(** X7. In a construction that completes, lines 54-55 write to the
    instance and to nothing else: every other object is as the base
    constructor left it, and an instance that the base constructor left in
    the store is named "atlassian-oauth" and holds under [_applicationURL]
    the [applicationURL] that the options object has at that point. *)
Theorem Strategy_names_instance this l o verify σ σ' :
  σ !! l = Some o ->
  Strategy this (VRef l) verify σ = (σ', Ok ()) ->
  exists σ2,
    OAuthStrategy this (VRef l) verify (<[l := configured o]> σ) = (σ2, Ok ()) /\
    (forall j, j ≠ this -> σ' !! j = σ2 !! j) /\
    (is_Some (σ2 !! this) ->
     field σ' this "name" = VStr "atlassian-oauth" /\
     field σ' this "_applicationURL" = field σ2 l "applicationURL").
Proof.
  intros Hl Hrun.
  destruct (Strategy_completes _ _ _ _ _ _ Hl Hrun) as (_ & _ & σ2 & Hbase & Hname).
  exists σ2. split; [exact Hbase |]. split.
  - intros j Hj. destruct (name_instance_store _ _ _ _ Hname) as [v ->].
    by rewrite !lookup_alter_ne.
  - intros Hthis. by apply name_instance_fields.
Qed.

(** X8. Construction and fetch compose: when the base constructor keeps
    the instance in the store and leaves [applicationURL] of the options
    object alone, the two URLs that [userProfile] requests on the constructed
    instance are built from the [applicationURL] the caller gave: that value,
    then "/plugins/servlet/applinks/whoami", and that value, then
    "/rest/api/1.0/users/", then the user name. *)
Theorem Strategy_then_userProfile_urls this l o verify σ σ' :
  σ !! l = Some o ->
  Strategy this (VRef l) verify σ = (σ', Ok ()) ->
  (forall σ2,
     OAuthStrategy this (VRef l) verify (<[l := configured o]> σ) = (σ2, Ok ()) ->
     is_Some (σ2 !! this) /\ field σ2 l "applicationURL" = prop o "applicationURL") ->
  stashWhoAMIResource σ' this =
    VStr (ToString (prop o "applicationURL") ++ "/plugins/servlet/applinks/whoami") /\
  forall username,
    stashProfileResource σ' this username =
      VStr (ToString (prop o "applicationURL") ++ "/rest/api/1.0/users/"
            ++ ToString username).
Proof.
  intros Hl Hrun Hframe.
  destruct (Strategy_completes _ _ _ _ _ _ Hl Hrun) as (_ & _ & σ2 & Hbase & Hname).
  destruct (Hframe σ2 Hbase) as [Hthis Happ].
  destruct (name_instance_fields _ _ _ _ Hthis Hname) as [_ Hurl].
  unfold stashWhoAMIResource, stashProfileResource, concat.
  rewrite Hurl, Happ. split; [reflexivity |].
  intros username. simpl ToString. by rewrite append_assoc.
Qed.

End ConstructionMore.

(** * Concrete runs of the constructor *)

Lemma completion_eq {A : Type} (r : store * result A) (c : result A) :
  r.2 = c -> r = (r.1, c).
Proof. destruct r as [σ c']. simpl. by intros ->. Defined.

Lemma Strategy_rejects_falsy_urls_witness :
  Sample.store_with Sample.options_with_empty_applicationURL !! 1
    = Some Sample.options_with_empty_applicationURL /\
  truthy (prop Sample.options_with_empty_applicationURL "applicationURL")
    && truthy (prop Sample.options_with_empty_applicationURL "callbackURL") = false /\
  Strategy (H := Sample.jdoe_host) 2 (VRef 1) Sample.verify
      (Sample.store_with Sample.options_with_empty_applicationURL) =
    (Sample.store_with Sample.options_with_empty_applicationURL,
     Thrown (Error "Atlassian Oauth Strategy requires a applicationURL option")).
Proof.
  split; [reflexivity |]. split; [reflexivity |].
  exact (Strategy_rejects_falsy_urls (H := Sample.jdoe_host) 2 1
           Sample.options_with_empty_applicationURL Sample.verify
           (Sample.store_with Sample.options_with_empty_applicationURL)
           eq_refl eq_refl).
Defined.

Lemma Strategy_rejects_primitive_options_witness :
  truthy (VStr "https://example.atlassian.net") = true /\
  (forall l, VStr "https://example.atlassian.net" ≠ VRef l) /\
  (forall p, VStr "https://example.atlassian.net" ≠ VObject p) /\
  Strategy (H := Sample.jdoe_host) 2 (VStr "https://example.atlassian.net") Sample.verify
      (Sample.store_with Sample.complete_options) =
    (Sample.store_with Sample.complete_options,
     Thrown (Error "Atlassian Oauth Strategy requires a applicationURL option")).
Proof.
  assert (Hr : forall l, VStr "https://example.atlassian.net" ≠ VRef l)
    by (intros l; discriminate).
  assert (Ho : forall p, VStr "https://example.atlassian.net" ≠ VObject p)
    by (intros p; discriminate).
  split; [reflexivity |]. split; [exact Hr |]. split; [exact Ho |].
  exact (Strategy_rejects_primitive_options (H := Sample.jdoe_host) 2
           (VStr "https://example.atlassian.net") Sample.verify
           (Sample.store_with Sample.complete_options) eq_refl Hr Ho).
Defined.

Lemma Strategy_hands_over_truthy_options_witness :
  Sample.store_with Sample.complete_options !! 1 = Some Sample.complete_options /\
  truthy (prop Sample.complete_options "applicationURL") = true /\
  truthy (prop Sample.complete_options "callbackURL") = true /\
  truthy (field (<[1 := configured (H := Sample.jdoe_host) Sample.complete_options]>
                   (Sample.store_with Sample.complete_options)) 1 "userAuthorizationURL")
    = true.
Proof.
  split; [reflexivity |]. split; [reflexivity |]. split; [reflexivity |].
  apply (proj2 (Strategy_hands_over_truthy_options (H := Sample.jdoe_host) 2 1
                  Sample.complete_options Sample.verify
                  (Sample.store_with Sample.complete_options)
                  eq_refl eq_refl eq_refl)).
  repeat constructor.
Defined.

Lemma Strategy_keeps_other_options_witness :
  Sample.store_with Sample.complete_options !! 1 = Some Sample.complete_options /\
  truthy (prop Sample.complete_options "applicationURL") = true /\
  truthy (prop Sample.complete_options "callbackURL") = true /\
  (<[1 := configured (H := Sample.jdoe_host) Sample.complete_options]>
     (Sample.store_with Sample.complete_options) !! 1 ≫= (.!! "consumerSecret"))
    = Some (VStr "pem").
Proof.
  split; [reflexivity |]. split; [reflexivity |]. split; [reflexivity |].
  rewrite (proj2 (Strategy_keeps_other_options (H := Sample.jdoe_host) 2 1
                    Sample.complete_options Sample.verify
                    (Sample.store_with Sample.complete_options)
                    eq_refl eq_refl eq_refl) "consumerSecret").
  - reflexivity.
  - rewrite !not_elem_of_cons. repeat split; try done. apply not_elem_of_nil.
Defined.

Lemma Strategy_base_failure_witness :
  Sample.store_with Sample.options_without_consumerKey !! 1
    = Some Sample.options_without_consumerKey /\
  truthy (prop Sample.options_without_consumerKey "applicationURL") = true /\
  truthy (prop Sample.options_without_consumerKey "callbackURL") = true /\
  Strategy (H := Sample.jdoe_host) 2 (VRef 1) Sample.verify
      (Sample.store_with Sample.options_without_consumerKey) =
    (Sample.constructed Sample.options_without_consumerKey,
     Thrown (Error "OAuthStrategy requires a consumerKey option")) /\
  field (Sample.constructed Sample.options_without_consumerKey) 1 "requestTokenURL"
    = VStr "https://example.atlassian.net/plugins/servlet/oauth/request-token" /\
  field (Sample.constructed Sample.options_without_consumerKey) 2 "name" = VStr "oauth" /\
  field (Sample.constructed Sample.options_without_consumerKey) 2 "_applicationURL"
    = VUndefined.
Proof.
  assert (Hbase :
    OAuthStrategy (Host := Sample.jdoe_host) 2 (VRef 1) Sample.verify
      (<[1 := configured (H := Sample.jdoe_host) Sample.options_without_consumerKey]>
         (Sample.store_with Sample.options_without_consumerKey))
    = (Sample.constructed Sample.options_without_consumerKey,
       Thrown (Error "OAuthStrategy requires a consumerKey option"))).
  { rewrite (completion_eq (OAuthStrategy _ _ _ _)
               (Thrown (Error "OAuthStrategy requires a consumerKey option")))
      by (vm_compute; reflexivity).
    f_equal; vm_compute; reflexivity. }
  split; [reflexivity |]. split; [reflexivity |]. split; [reflexivity |].
  split.
  - exact (Strategy_base_failure (H := Sample.jdoe_host) 2 1
             Sample.options_without_consumerKey Sample.verify
             (Sample.store_with Sample.options_without_consumerKey)
             (Sample.constructed Sample.options_without_consumerKey)
             (Error "OAuthStrategy requires a consumerKey option")
             eq_refl eq_refl eq_refl Hbase).
  - split; [| split]; vm_compute; reflexivity.
Defined.

Lemma Strategy_again_on_configured_options_witness :
  Sample.constructed Sample.complete_options !! 1
    = Some (configured (H := Sample.jdoe_host) Sample.complete_options) /\
  truthy (prop Sample.complete_options "applicationURL") = true /\
  truthy (prop Sample.complete_options "callbackURL") = true /\
  Strategy (H := Sample.jdoe_host) 2 (VRef 1) Sample.verify
      (Sample.constructed Sample.complete_options) =
    (OAuthStrategy (Host := Sample.jdoe_host) 2 (VRef 1) Sample.verify
       ≫= fun _ => name_instance 2 (VRef 1))
      (Sample.constructed Sample.complete_options).
Proof.
  assert (Hl : Sample.constructed Sample.complete_options !! 1
               = Some (configured (H := Sample.jdoe_host) Sample.complete_options))
    by (vm_compute; reflexivity).
  split; [exact Hl |]. split; [reflexivity |]. split; [reflexivity |].
  exact (Strategy_again_on_configured_options (H := Sample.jdoe_host) 2 1
           Sample.complete_options Sample.verify
           (Sample.constructed Sample.complete_options) Hl eq_refl eq_refl).
Defined.

Lemma Strategy_names_instance_witness :
  Sample.store_with Sample.complete_options !! 1 = Some Sample.complete_options /\
  Strategy (H := Sample.jdoe_host) 2 (VRef 1) Sample.verify
      (Sample.store_with Sample.complete_options)
    = (Sample.constructed Sample.complete_options, Ok ()) /\
  field (Sample.constructed Sample.complete_options) 2 "name" = VStr "atlassian-oauth" /\
  field (Sample.constructed Sample.complete_options) 2 "_applicationURL"
    = VStr "https://example.atlassian.net".
Proof.
  assert (Hrun : Strategy (H := Sample.jdoe_host) 2 (VRef 1) Sample.verify
                   (Sample.store_with Sample.complete_options)
                 = (Sample.constructed Sample.complete_options, Ok ())).
  { apply completes_eq. vm_compute. reflexivity. }
  split; [reflexivity |]. split; [exact Hrun |].
  destruct (Strategy_names_instance (H := Sample.jdoe_host) 2 1
              Sample.complete_options Sample.verify
              (Sample.store_with Sample.complete_options)
              (Sample.constructed Sample.complete_options)
              eq_refl Hrun) as (σ2 & Hbase & _ & Hfields).
  assert (Hσ2 : σ2 =
    (OAuthStrategy (Host := Sample.jdoe_host) 2 (VRef 1) Sample.verify
       (<[1 := configured (H := Sample.jdoe_host) Sample.complete_options]>
          (Sample.store_with Sample.complete_options))).1)
    by (rewrite Hbase; reflexivity).
  assert (Hthis : is_Some (σ2 !! 2)).
  { rewrite Hσ2. apply (bool_decide_unpack _). vm_compute. reflexivity. }
  destruct (Hfields Hthis) as [Hname Hurl].
  split; [exact Hname |].
  rewrite Hurl, Hσ2. vm_compute. reflexivity.
Defined.

Lemma Strategy_then_userProfile_urls_witness :
  Sample.store_with Sample.complete_options !! 1 = Some Sample.complete_options /\
  Strategy (H := Sample.jdoe_host) 2 (VRef 1) Sample.verify
      (Sample.store_with Sample.complete_options)
    = (Sample.constructed Sample.complete_options, Ok ()) /\
  (forall σ2,
     OAuthStrategy (Host := Sample.jdoe_host) 2 (VRef 1) Sample.verify
         (<[1 := configured (H := Sample.jdoe_host) Sample.complete_options]>
            (Sample.store_with Sample.complete_options)) = (σ2, Ok ()) ->
     is_Some (σ2 !! 2) /\
     field σ2 1 "applicationURL" = prop Sample.complete_options "applicationURL") /\
  stashWhoAMIResource (H := Sample.jdoe_host) (Sample.constructed Sample.complete_options) 2
    = VStr Sample.whoami_url /\
  stashProfileResource (H := Sample.jdoe_host) (Sample.constructed Sample.complete_options) 2
      (VStr "jdoe")
    = VStr Sample.jdoe_url.
Proof.
  assert (Hrun : Strategy (H := Sample.jdoe_host) 2 (VRef 1) Sample.verify
                   (Sample.store_with Sample.complete_options)
                 = (Sample.constructed Sample.complete_options, Ok ())).
  { apply completes_eq. vm_compute. reflexivity. }
  assert (Hframe : forall σ2,
     OAuthStrategy (Host := Sample.jdoe_host) 2 (VRef 1) Sample.verify
         (<[1 := configured (H := Sample.jdoe_host) Sample.complete_options]>
            (Sample.store_with Sample.complete_options)) = (σ2, Ok ()) ->
     is_Some (σ2 !! 2) /\
     field σ2 1 "applicationURL" = prop Sample.complete_options "applicationURL").
  { intros σ2 Hbase.
    assert (Hσ2 : σ2 =
      (OAuthStrategy (Host := Sample.jdoe_host) 2 (VRef 1) Sample.verify
         (<[1 := configured (H := Sample.jdoe_host) Sample.complete_options]>
            (Sample.store_with Sample.complete_options))).1)
      by (rewrite Hbase; reflexivity).
    rewrite Hσ2. split.
    - apply (bool_decide_unpack _). vm_compute. reflexivity.
    - vm_compute. reflexivity. }
  split; [reflexivity |]. split; [exact Hrun |]. split; [exact Hframe |].
  destruct (Strategy_then_userProfile_urls (H := Sample.jdoe_host) 2 1
              Sample.complete_options Sample.verify
              (Sample.store_with Sample.complete_options)
              (Sample.constructed Sample.complete_options)
              eq_refl Hrun Hframe) as [Hwho Hprofile].
  split; [exact Hwho | exact (Hprofile (VStr "jdoe"))].
Defined.

(** * More about [userProfile] *)

Section FetchMore.
Context `{Host}.
Implicit Types (σ : store) (self : loc) (token tokenSecret params err body : value).

(** The second callback on a body that parses to anything but [null]: the
    four reads succeed and the profile is built from what they give. *)
Lemma on_profile_parsed σ token tokenSecret err body json :
  truthy err = false ->
  JSON_parse (ToString body) = Some json ->
  json ≠ VNull -> json ≠ VUndefined ->
  exists name displayName slug emailAddress,
    get σ json "name" = Ok name /\
    get σ json "displayName" = Ok displayName /\
    get σ json "slug" = Ok slug /\
    get σ json "emailAddress" = Ok emailAddress /\
    on_profile σ token tokenSecret err body =
      invoke_done
        [ VNull;
          VObject
            (<["tokenSecret" := tokenSecret]> (<["token" := token]>
            (<["_json" := json]> (<["_raw" := body]>
            (<["emails" := VArray [VObject {["value" := emailAddress]}]]>
            (<["avatarUrls" := slug]>
            (<["displayName" := displayName]>
            (<["username" := name]>
            (<["id" := name]>
            {["provider" := VStr "atlassian-oauth"]}))))))))) ].
Proof.
  intros He Hp Hnull Hundef. unfold on_profile. rewrite He, Hp.
  destruct json; try done; simpl; eauto 10.
Qed.

(** X15. When both requests are answered without an error and the second
    body parses to any value but [null], [done] is invoked once, with [null]
    and a profile, whatever the value holds: [id] and [username] are both
    its [name], [displayName] its [displayName], [avatarUrls] its [slug],
    [emails] the one-element array around its [emailAddress], [_raw] the
    body and [_json] the value.  Nothing is checked: a property that the
    value lacks is [undefined] in the profile. *)
Theorem userProfile_parsed_body
    σ self token tokenSecret params d1 err1 username d2 err2 body json :
  _performSecureRequest (GET token tokenSecret (stashWhoAMIResource σ self))
    = Answer d1 err1 username ->
  truthy err1 = false ->
  _performSecureRequest (GET token tokenSecret (stashProfileResource σ self username))
    = Answer d2 err2 body ->
  truthy err2 = false ->
  JSON_parse (ToString body) = Some json ->
  json ≠ VNull -> json ≠ VUndefined ->
  exists name displayName slug emailAddress,
    get σ json "name" = Ok name /\
    get σ json "displayName" = Ok displayName /\
    get σ json "slug" = Ok slug /\
    get σ json "emailAddress" = Ok emailAddress /\
    trace (userProfile σ self token tokenSecret params) =
      [ Request (GET token tokenSecret (stashWhoAMIResource σ self));
        Request (GET token tokenSecret (stashProfileResource σ self username));
        Done [ VNull;
               VObject
                 (<["tokenSecret" := tokenSecret]> (<["token" := token]>
                 (<["_json" := json]> (<["_raw" := body]>
                 (<["emails" := VArray [VObject {["value" := emailAddress]}]]>
                 (<["avatarUrls" := slug]>
                 (<["displayName" := displayName]>
                 (<["username" := name]>
                 (<["id" := name]>
                 {["provider" := VStr "atlassian-oauth"]}))))))))) ] ].
Proof.
  intros Hreply1 Herr1 Hreply2 Herr2 Hparse Hnull Hundef.
  destruct (on_profile_parsed σ token tokenSecret err2 body json
              Herr2 Hparse Hnull Hundef)
    as (name & displayName & slug & emailAddress & Hn & Hd & Hs & He & Hcb).
  exists name, displayName, slug, emailAddress.
  repeat (split; [assumption |]).
  unfold trace, userProfile, try_catch, perform. rewrite Hreply1.
  unfold on_whoami. rewrite Herr1.
  unfold try_catch, perform. rewrite Hreply2, Hcb.
  destruct d1, d2; reflexivity.
Qed.

(** X16. A second body that is JSON but not an object, that is a number,
    a string, a boolean or an array, is reported as a success: [done] is
    invoked with [null] and a profile whose [id], [username], [displayName]
    and [avatarUrls] are [undefined] and whose [emails] holds one object
    with an [undefined] [value]. *)
Theorem userProfile_scalar_body
    σ self token tokenSecret params d1 err1 username d2 err2 body json :
  _performSecureRequest (GET token tokenSecret (stashWhoAMIResource σ self))
    = Answer d1 err1 username ->
  truthy err1 = false ->
  _performSecureRequest (GET token tokenSecret (stashProfileResource σ self username))
    = Answer d2 err2 body ->
  truthy err2 = false ->
  JSON_parse (ToString body) = Some json ->
  (exists b, json = VBool b) \/ (exists n, json = VNum n) \/
  (exists s, json = VStr s) \/ (exists elems, json = VArray elems) ->
  exists profile : object,
    done_calls (trace (userProfile σ self token tokenSecret params))
      = [[VNull; VObject profile]] /\
    uncaught (trace (userProfile σ self token tokenSecret params)) = [] /\
    profile !! "id" = Some VUndefined /\
    profile !! "username" = Some VUndefined /\
    profile !! "displayName" = Some VUndefined /\
    profile !! "avatarUrls" = Some VUndefined /\
    profile !! "emails" = Some (VArray [VObject {["value" := VUndefined]}]) /\
    profile !! "_json" = Some json.
Proof.
  intros Hreply1 Herr1 Hreply2 Herr2 Hparse Hscalar.
  assert (Hcb : exists profile : object,
            on_profile σ token tokenSecret err2 body = invoke_done [VNull; VObject profile] /\
            profile !! "id" = Some VUndefined /\
            profile !! "username" = Some VUndefined /\
            profile !! "displayName" = Some VUndefined /\
            profile !! "avatarUrls" = Some VUndefined /\
            profile !! "emails" = Some (VArray [VObject {["value" := VUndefined]}]) /\
            profile !! "_json" = Some json).
  { unfold on_profile. rewrite Herr2, Hparse.
    destruct Hscalar as [[b ->] | [[n ->] | [[s ->] | [elems ->]]]]; simpl;
      eexists; (split; [reflexivity |]); repeat split. }
  destruct Hcb as (profile & Hcb & Hfields).
  exists profile.
  unfold trace, userProfile, try_catch, perform. rewrite Hreply1.
  unfold on_whoami. rewrite Herr1.
  unfold try_catch, perform. rewrite Hreply2, Hcb.
  destruct d1, d2; (split; [reflexivity |]); (split; [reflexivity |]); exact Hfields.
Qed.

(** X17. A second body that parses to [null] makes the read of
    [json.name] at line 102 throw a [TypeError] inside the callback.  With a
    synchronous answer the handler of line 117 passes it to [done]; with a
    deferred answer [done] is never invoked and the fault is uncaught. *)
Theorem userProfile_null_body
    σ self token tokenSecret params d1 err1 username d2 err2 body :
  _performSecureRequest (GET token tokenSecret (stashWhoAMIResource σ self))
    = Answer d1 err1 username ->
  truthy err1 = false ->
  _performSecureRequest (GET token tokenSecret (stashProfileResource σ self username))
    = Answer d2 err2 body ->
  truthy err2 = false ->
  JSON_parse (ToString body) = Some VNull ->
  trace (userProfile σ self token tokenSecret params) =
    [ Request (GET token tokenSecret (stashWhoAMIResource σ self));
      Request (GET token tokenSecret (stashProfileResource σ self username));
      match d2 with
      | Synchronous => Done [TypeError]
      | Deferred => Uncaught TypeError
      end ].
Proof.
  intros Hreply1 Herr1 Hreply2 Herr2 Hparse.
  unfold trace, userProfile, try_catch, perform. rewrite Hreply1.
  unfold on_whoami. rewrite Herr1.
  unfold try_catch, perform. rewrite Hreply2.
  rewrite (on_profile_null _ _ _ _ _ Herr2 Hparse).
  destruct d1, d2; reflexivity.
Qed.


(** X19. The call sets no timer of its own: when the OAuth client takes
    a request and never calls back, be it the first request or the second,
    [done] is never invoked and nothing is thrown. *)
Theorem userProfile_unanswered σ self token tokenSecret params :
  _performSecureRequest (GET token tokenSecret (stashWhoAMIResource σ self)) = NoAnswer \/
  (exists d err username,
     _performSecureRequest (GET token tokenSecret (stashWhoAMIResource σ self))
       = Answer d err username /\
     truthy err = false /\
     _performSecureRequest (GET token tokenSecret (stashProfileResource σ self username))
       = NoAnswer) ->
  done_calls (trace (userProfile σ self token tokenSecret params)) = [] /\
  uncaught (trace (userProfile σ self token tokenSecret params)) = [].
Proof.
  intros [Hreply | (d & err & username & Hreply1 & Herr & Hreply2)];
    unfold trace, userProfile, try_catch, perform.
  - rewrite Hreply. split; reflexivity.
  - rewrite Hreply1. unfold on_whoami. rewrite Herr.
    unfold try_catch, perform. rewrite Hreply2.
    destruct d; split; reflexivity.
Qed.

End FetchMore.

(** * Concrete runs of [userProfile] *)

Lemma userProfile_done_or_escape_witness :
  (forall rq,
     _performSecureRequest
       (Host := Sample.always (Answer Deferred Sample.unauthorized VUndefined)) rq
     ≠ NoAnswer) /\
  (length (done_calls
             (Sample.fetch (Sample.always (Answer Deferred Sample.unauthorized VUndefined))))
   + length (uncaught
               (Sample.fetch (Sample.always (Answer Deferred Sample.unauthorized VUndefined))))
   = 1)%nat.
Proof.
  assert (Hanswer : forall rq,
            _performSecureRequest
              (Host := Sample.always (Answer Deferred Sample.unauthorized VUndefined)) rq
            ≠ NoAnswer) by (intros rq; discriminate).
  split; [exact Hanswer |].
  exact (userProfile_done_or_escape
           (H := Sample.always (Answer Deferred Sample.unauthorized VUndefined))
           Sample.store_of_instance 2 Sample.token Sample.tokenSecret VUndefined Hanswer).
Defined.

Lemma userProfile_profile_failure_witness :
  _performSecureRequest (Host := Sample.profile_refusing_host)
      (GET Sample.token Sample.tokenSecret
         (stashWhoAMIResource (H := Sample.profile_refusing_host) Sample.store_of_instance 2))
    = Answer Deferred VNull (VStr "jdoe") /\
  truthy VNull = false /\
  _performSecureRequest (Host := Sample.profile_refusing_host)
      (GET Sample.token Sample.tokenSecret
         (stashProfileResource (H := Sample.profile_refusing_host) Sample.store_of_instance 2
            (VStr "jdoe")))
    = Answer Deferred Sample.not_found (VStr "Not Found") /\
  truthy Sample.not_found = true /\
  Sample.fetch Sample.profile_refusing_host =
    [ Request (GET Sample.token Sample.tokenSecret (VStr Sample.whoami_url));
      Request (GET Sample.token Sample.tokenSecret (VStr Sample.jdoe_url));
      Done [InternalOAuthError "failed to fetch user profile" Sample.not_found] ].
Proof.
  split; [reflexivity |]. split; [reflexivity |].
  split; [reflexivity |]. split; [reflexivity |].
  exact (userProfile_profile_failure (H := Sample.profile_refusing_host)
           Sample.store_of_instance 2 Sample.token Sample.tokenSecret VUndefined
           Deferred VNull (VStr "jdoe") Deferred Sample.not_found (VStr "Not Found")
           eq_refl eq_refl eq_refl eq_refl).
Defined.

Lemma userProfile_first_dispatch_fault_witness :
  _performSecureRequest (Host := Sample.faulting_host)
      (GET Sample.token Sample.tokenSecret
         (stashWhoAMIResource (H := Sample.faulting_host) Sample.store_of_instance 2))
    = Fault Sample.signing_fault /\
  Sample.fetch Sample.faulting_host =
    [ Request (GET Sample.token Sample.tokenSecret (VStr Sample.whoami_url));
      Done [Sample.signing_fault] ].
Proof.
  split; [reflexivity |].
  exact (userProfile_first_dispatch_fault (H := Sample.faulting_host)
           Sample.store_of_instance 2 Sample.token Sample.tokenSecret VUndefined
           Sample.signing_fault eq_refl).
Defined.

Lemma userProfile_second_dispatch_fault_witness :
  _performSecureRequest (Host := Sample.late_faulting_host)
      (GET Sample.token Sample.tokenSecret
         (stashWhoAMIResource (H := Sample.late_faulting_host) Sample.store_of_instance 2))
    = Answer Deferred VNull (VStr "jdoe") /\
  truthy VNull = false /\
  _performSecureRequest (Host := Sample.late_faulting_host)
      (GET Sample.token Sample.tokenSecret
         (stashProfileResource (H := Sample.late_faulting_host) Sample.store_of_instance 2
            (VStr "jdoe")))
    = Fault Sample.signing_fault /\
  Sample.fetch Sample.late_faulting_host =
    [ Request (GET Sample.token Sample.tokenSecret (VStr Sample.whoami_url));
      Request (GET Sample.token Sample.tokenSecret (VStr Sample.jdoe_url));
      Done [Sample.signing_fault] ].
Proof.
  split; [reflexivity |]. split; [reflexivity |]. split; [reflexivity |].
  exact (userProfile_second_dispatch_fault (H := Sample.late_faulting_host)
           Sample.store_of_instance 2 Sample.token Sample.tokenSecret VUndefined
           Deferred VNull (VStr "jdoe") Sample.signing_fault eq_refl eq_refl eq_refl).
Defined.

Lemma userProfile_parsed_body_witness :
  _performSecureRequest (Host := Sample.empty_object_host)
      (GET Sample.token Sample.tokenSecret
         (stashWhoAMIResource (H := Sample.empty_object_host) Sample.store_of_instance 2))
    = Answer Deferred VNull (VStr "jdoe") /\
  truthy VNull = false /\
  _performSecureRequest (Host := Sample.empty_object_host)
      (GET Sample.token Sample.tokenSecret
         (stashProfileResource (H := Sample.empty_object_host) Sample.store_of_instance 2
            (VStr "jdoe")))
    = Answer Deferred VNull (VStr "{}") /\
  JSON_parse (Host := Sample.empty_object_host)
      (ToString (H := Sample.empty_object_host) (VStr "{}")) = Some (VObject ∅) /\
  VObject ∅ ≠ VNull /\
  VObject ∅ ≠ VUndefined /\
  exists name displayName slug emailAddress,
    get Sample.store_of_instance (VObject ∅) "name" = Ok name /\
    get Sample.store_of_instance (VObject ∅) "displayName" = Ok displayName /\
    get Sample.store_of_instance (VObject ∅) "slug" = Ok slug /\
    get Sample.store_of_instance (VObject ∅) "emailAddress" = Ok emailAddress /\
    Sample.fetch Sample.empty_object_host =
      [ Request (GET Sample.token Sample.tokenSecret (VStr Sample.whoami_url));
        Request (GET Sample.token Sample.tokenSecret (VStr Sample.jdoe_url));
        Done [ VNull;
               VObject
                 (<["tokenSecret" := Sample.tokenSecret]> (<["token" := Sample.token]>
                 (<["_json" := VObject ∅]> (<["_raw" := VStr "{}"]>
                 (<["emails" := VArray [VObject {["value" := emailAddress]}]]>
                 (<["avatarUrls" := slug]>
                 (<["displayName" := displayName]>
                 (<["username" := name]>
                 (<["id" := name]>
                 {["provider" := VStr "atlassian-oauth"]}))))))))) ] ].
Proof.
  assert (Hparse : JSON_parse (Host := Sample.empty_object_host)
                     (ToString (H := Sample.empty_object_host) (VStr "{}"))
                   = Some (VObject ∅)) by (vm_compute; reflexivity).
  assert (Hnull : VObject ∅ ≠ VNull) by discriminate.
  assert (Hundef : VObject ∅ ≠ VUndefined) by discriminate.
  split; [reflexivity |]. split; [reflexivity |]. split; [reflexivity |].
  split; [exact Hparse |]. split; [exact Hnull |]. split; [exact Hundef |].
  exact (userProfile_parsed_body (H := Sample.empty_object_host)
           Sample.store_of_instance 2 Sample.token Sample.tokenSecret VUndefined
           Deferred VNull (VStr "jdoe") Deferred VNull (VStr "{}") (VObject ∅)
           eq_refl eq_refl eq_refl eq_refl Hparse Hnull Hundef).
Defined.

Lemma userProfile_scalar_body_witness :
  _performSecureRequest (Host := Sample.number_body_host)
      (GET Sample.token Sample.tokenSecret
         (stashWhoAMIResource (H := Sample.number_body_host) Sample.store_of_instance 2))
    = Answer Deferred VNull (VStr "jdoe") /\
  truthy VNull = false /\
  _performSecureRequest (Host := Sample.number_body_host)
      (GET Sample.token Sample.tokenSecret
         (stashProfileResource (H := Sample.number_body_host) Sample.store_of_instance 2
            (VStr "jdoe")))
    = Answer Deferred VNull (VStr "42") /\
  JSON_parse (Host := Sample.number_body_host)
      (ToString (H := Sample.number_body_host) (VStr "42")) = Some (VNum 42) /\
  ((exists b, VNum 42 = VBool b) \/ (exists n, VNum 42 = VNum n) \/
   (exists s, VNum 42 = VStr s) \/ (exists elems, VNum 42 = VArray elems)) /\
  exists profile : object,
    done_calls (Sample.fetch Sample.number_body_host) = [[VNull; VObject profile]] /\
    profile !! "id" = Some VUndefined.
Proof.
  assert (Hparse : JSON_parse (Host := Sample.number_body_host)
                     (ToString (H := Sample.number_body_host) (VStr "42"))
                   = Some (VNum 42)) by (vm_compute; reflexivity).
  assert (Hscalar : (exists b, VNum 42 = VBool b) \/ (exists n, VNum 42 = VNum n) \/
                    (exists s, VNum 42 = VStr s) \/ (exists elems, VNum 42 = VArray elems))
    by (right; left; exists 42%Z; reflexivity).
  split; [reflexivity |]. split; [reflexivity |]. split; [reflexivity |].
  split; [exact Hparse |]. split; [exact Hscalar |].
  destruct (userProfile_scalar_body (H := Sample.number_body_host)
              Sample.store_of_instance 2 Sample.token Sample.tokenSecret VUndefined
              Deferred VNull (VStr "jdoe") Deferred VNull (VStr "42") (VNum 42)
              eq_refl eq_refl eq_refl eq_refl Hparse Hscalar)
    as (profile & Hdone & _ & Hid & _).
  exists profile. split; [exact Hdone | exact Hid].
Defined.

Lemma userProfile_null_body_witness :
  _performSecureRequest (Host := Sample.null_body_host)
      (GET Sample.token Sample.tokenSecret
         (stashWhoAMIResource (H := Sample.null_body_host) Sample.store_of_instance 2))
    = Answer Deferred VNull (VStr "jdoe") /\
  truthy VNull = false /\
  _performSecureRequest (Host := Sample.null_body_host)
      (GET Sample.token Sample.tokenSecret
         (stashProfileResource (H := Sample.null_body_host) Sample.store_of_instance 2
            (VStr "jdoe")))
    = Answer Deferred VNull (VStr "null") /\
  JSON_parse (Host := Sample.null_body_host)
      (ToString (H := Sample.null_body_host) (VStr "null")) = Some VNull /\
  Sample.fetch Sample.null_body_host =
    [ Request (GET Sample.token Sample.tokenSecret (VStr Sample.whoami_url));
      Request (GET Sample.token Sample.tokenSecret (VStr Sample.jdoe_url));
      Uncaught TypeError ].
Proof.
  split; [reflexivity |]. split; [reflexivity |].
  split; [reflexivity |]. split; [reflexivity |].
  exact (userProfile_null_body (H := Sample.null_body_host)
           Sample.store_of_instance 2 Sample.token Sample.tokenSecret VUndefined
           Deferred VNull (VStr "jdoe") Deferred VNull (VStr "null")
           eq_refl eq_refl eq_refl eq_refl eq_refl).
Defined.

Lemma userProfile_unanswered_witness :
  (_performSecureRequest (Host := Sample.half_silent_host)
       (GET Sample.token Sample.tokenSecret
          (stashWhoAMIResource (H := Sample.half_silent_host) Sample.store_of_instance 2))
     = NoAnswer \/
   exists d err username,
     _performSecureRequest (Host := Sample.half_silent_host)
         (GET Sample.token Sample.tokenSecret
            (stashWhoAMIResource (H := Sample.half_silent_host) Sample.store_of_instance 2))
       = Answer d err username /\
     truthy err = false /\
     _performSecureRequest (Host := Sample.half_silent_host)
         (GET Sample.token Sample.tokenSecret
            (stashProfileResource (H := Sample.half_silent_host) Sample.store_of_instance 2
               username))
       = NoAnswer) /\
  done_calls (Sample.fetch Sample.half_silent_host) = [] /\
  uncaught (Sample.fetch Sample.half_silent_host) = [].
Proof.
  assert (Hsilent :
    _performSecureRequest (Host := Sample.half_silent_host)
        (GET Sample.token Sample.tokenSecret
           (stashWhoAMIResource (H := Sample.half_silent_host) Sample.store_of_instance 2))
      = NoAnswer \/
    exists d err username,
      _performSecureRequest (Host := Sample.half_silent_host)
          (GET Sample.token Sample.tokenSecret
             (stashWhoAMIResource (H := Sample.half_silent_host) Sample.store_of_instance 2))
        = Answer d err username /\
      truthy err = false /\
      _performSecureRequest (Host := Sample.half_silent_host)
          (GET Sample.token Sample.tokenSecret
             (stashProfileResource (H := Sample.half_silent_host) Sample.store_of_instance 2
                username))
        = NoAnswer).
  { right. exists Deferred, VNull, (VStr "jdoe").
    split; [reflexivity |]. split; reflexivity. }
  split; [exact Hsilent |].
  exact (userProfile_unanswered (H := Sample.half_silent_host)
           Sample.store_of_instance 2 Sample.token Sample.tokenSecret VUndefined Hsilent).
Defined.


(** * Frozen options *)

Section FrozenOptions.
Context `{Host}.

(** X20. A frozen options object that passes both guards is left as it
    is: lines 48-51 are dropped without a fault, and the base constructor is
    run on the store as it was, with the object as the caller made it.  It
    finds an endpoint URL or a signature method only if the caller gave
    one. *)
Theorem Strategy_leaves_frozen_options this (p : object) verify (σ : store) :
  truthy (prop p "applicationURL") = true ->
  truthy (prop p "callbackURL") = true ->
  Strategy this (VObject p) verify σ =
    (OAuthStrategy this (VObject p) verify ≫= fun _ => name_instance this (VObject p)) σ.
Proof.
  intros Ha Hc. rewrite Strategy_on_frozen. by rewrite Ha, Hc.
Qed.

End FrozenOptions.

Lemma Strategy_leaves_frozen_options_witness :
  truthy (prop Sample.complete_options "applicationURL") = true /\
  truthy (prop Sample.complete_options "callbackURL") = true /\
  (Sample.constructed_frozen Sample.complete_options).2
    = Thrown (Error "OAuthStrategy requires a requestTokenURL option").
Proof.
  split; [reflexivity |]. split; [reflexivity |].
  unfold Sample.constructed_frozen.
  rewrite (Strategy_leaves_frozen_options (H := Sample.host ∅) 2 Sample.complete_options
             Sample.verify (Sample.store_with ∅) eq_refl eq_refl).
  vm_compute. reflexivity.
Defined.
